(** * doogie-cli: the edit.conf translation engine

    A shallow embedding of the configuration-translation core of
    doogie-cli (TypeScript) and the properties its specification states.

    Sources embedded here:
    - [src/services/dosbox-settings.ts]: the schema tables,
      [parseEditConfVersion], [isLegacyVersion], [parseEditConf],
      [convertEditConfToSettings], [mergeSettings], [parse9xResolution],
      [extractWin9xSettings], [settingsToConfString], [generateDosboxConf];
    - the later revision of that module: same functions, but the
      current-schema tables come from [option-dat.ts], the legacy tables no
      longer define section 21, and [settingsToConfString] also skips
      [glide];
    - [src/data/mapper/option-dat.ts]: [SECTION_NAMES], [SECTION_ITEMS],
      [getKeyForEditConfEntry];
    - [src/data/mapper/template-loader.ts]: [parseEditConfFormat],
      [applyValuesToTemplate], [extractWin9xDisplaySettings];
    - [src/data/mapper/defaults.ts]: [WIN9X_DEFAULTS], [getDefaultValue].

    Modelling conventions.
    - A JavaScript string is a [list ascii]: a sequence of code units, here
      restricted to code units below 256.
    - A JavaScript number that holds the result of [parseInt] is an
      [option Z]: [None] is NaN, [Some n] the integer [n].  This is exact for
      every integer of magnitude at most 2^53; [-0] and [0] coincide, as they
      do for every operation the code applies to them ([===], property
      lookup, [||]).
    - A plain object or [Map] used as a dictionary is an insertion-ordered
      association list ([obj]); [Object.entries] is the list itself.  Keys
      inherited from [Object.prototype] are not part of the model.  The
      values of a settings map are strings, as the resolver and the default
      tables produce them.
    - Where a property is about mutation, objects live in an explicit heap
      ([Store]).
    - A loop over lines or entries is a fold; the body of the loop is a
      function of its own ([parseEditConf_line], [convert_entry],
      [extract_entry], ...). *)

From Stdlib Require Import ZArith Lia List Ascii String Bool.
From stdpp Require Import base tactics option list strings.

Open Scope Z_scope.
Open Scope list_scope.

(* ================================================================== *)
(** * JavaScript strings *)
(* ================================================================== *)

Abbreviation str := (list ascii).

(** String literals. *)
Definition lit (s : string) : str := list_ascii_of_string s.

Definition code (c : ascii) : Z := Z.of_nat (nat_of_ascii c).

Definition ch_eqb (a b : ascii) : bool := Ascii.eqb a b.

Fixpoint str_eqb (a b : str) : bool :=
  match a, b with
  | [], [] => true
  | x :: a', y :: b' => ch_eqb x y && str_eqb a' b'
  | _, _ => false
  end.

(** [WhiteSpace] and [LineTerminator] code units below 256: TAB, LF, VT, FF,
    CR, SP and NBSP.  This is the set [String.prototype.trim] and the
    leading-whitespace skip of [parseInt] remove. *)
Definition is_ws (c : ascii) : bool :=
  let n := code c in
  (n =? 9) || (n =? 10) || (n =? 11) || (n =? 12) || (n =? 13)
  || (n =? 32) || (n =? 160).

(** [\d] and the radix-10 digits of [parseInt]. *)
Definition is_digit (c : ascii) : bool :=
  let n := code c in (48 <=? n) && (n <=? 57).

Definition digit_val (c : ascii) : Z := code c - 48.

Fixpoint dropWhile {A} (p : A -> bool) (l : list A) : list A :=
  match l with
  | [] => []
  | x :: l' => if p x then dropWhile p l' else l
  end.

Fixpoint takeWhile {A} (p : A -> bool) (l : list A) : list A :=
  match l with
  | [] => []
  | x :: l' => if p x then x :: takeWhile p l' else []
  end.

(** [s.trimStart()], [s.trimEnd()], [s.trim()]. *)
Definition trimStart (s : str) : str := dropWhile is_ws s.
Definition trimEnd (s : str) : str := rev (dropWhile is_ws (rev s)).
Definition trim (s : str) : str := trimEnd (trimStart s).

(** [s.startsWith(p)]. *)
Fixpoint startsWith (p s : str) : bool :=
  match p, s with
  | [], _ => true
  | x :: p', y :: s' => ch_eqb x y && startsWith p' s'
  | _ :: _, [] => false
  end.

(** [s.split(sep)] for a one-character separator: never empty, one part
    more than there are separators. *)
Fixpoint split (sep : ascii) (s : str) : list str :=
  match s with
  | [] => [[]]
  | c :: s' =>
      if ch_eqb c sep then [] :: split sep s'
      else match split sep s' with
           | p :: ps => (c :: p) :: ps
           | [] => [[c]]
           end
  end.

(** [parts.join(sep)]. *)
Fixpoint join (sep : str) (parts : list str) : str :=
  match parts with
  | [] => []
  | [p] => p
  | p :: ps => p ++ sep ++ join sep ps
  end.

(** [s.replace(/\./g, '')] and the like: delete every occurrence of a
    character. *)
Definition removeAll (c : ascii) (s : str) : str :=
  List.filter (fun x => negb (ch_eqb x c)) s.

(** Value of a run of decimal digits, most significant first. *)
Definition decimal (ds : str) : Z :=
  fold_left (fun acc c => 10 * acc + digit_val c) ds 0.

(** [parseInt(s, 10)]: skip leading white space, take an optional sign, then
    the longest run of decimal digits; NaN ([None]) when that run is empty.
    Whatever follows the digits is ignored. *)
Definition parseInt (s : str) : option Z :=
  let s1 := trimStart s in
  let '(sign, s2) :=
    match s1 with
    | c :: r => if ch_eqb c "-" then (-1, r)
                else if ch_eqb c "+" then (1, r) else (1, s1)
    | [] => (1, s1)
    end in
  match takeWhile is_digit s2 with
  | [] => None
  | ds => Some (sign * decimal ds)
  end.

(** [isNaN(x)]. *)
Definition isNaN (x : option Z) : bool :=
  match x with None => true | Some _ => false end.

(* ================================================================== *)
(** * Plain objects used as dictionaries *)
(* ================================================================== *)

(** An object with string keys: its own properties in insertion order. *)
Definition obj (V : Type) : Type := list (str * V).

(** [o[k]]: [None] is [undefined]. *)
Fixpoint obj_get {V} (o : obj V) (k : str) : option V :=
  match o with
  | [] => None
  | (k', v) :: o' => if str_eqb k' k then Some v else obj_get o' k
  end.

(** [o[k] = v]: overwrite in place, or append a new property. *)
Fixpoint obj_set {V} (o : obj V) (k : str) (v : V) : obj V :=
  match o with
  | [] => [(k, v)]
  | (k', v') :: o' =>
      if str_eqb k' k then (k', v) :: o' else (k', v') :: obj_set o' k v
  end.

(** [o[s][k]] on a two-level object, [None] when either level is missing. *)
Definition obj_get2 {V} (o : obj (obj V)) (s k : str) : option V :=
  match obj_get o s with
  | Some items => obj_get items k
  | None => None
  end.

(** A [Record<number, V>] table: only ever read by key. *)
Definition Table (V : Type) : Type := list (Z * V).

(** [t[n]] for a number [n]. *)
Fixpoint tbl_get {V} (t : Table V) (n : Z) : option V :=
  match t with
  | [] => None
  | (n', v) :: t' => if n' =? n then Some v else tbl_get t' n
  end.

(** Truthiness of a possibly-undefined string: [undefined] and [''] are
    falsy. *)
Definition truthy (s : option str) : bool :=
  match s with
  | Some (_ :: _) => true
  | _ => false
  end.

(* ================================================================== *)
(** * Schema registry *)
(* ================================================================== *)

(** [option-dat.ts]: the current-schema tables derived from Option.dat. *)
Module OptionDat.

Definition SECTION_NAMES : Table str :=
  [ (0, lit "default")
  ; (1, lit "win9x")
  ; (2, lit "pcem")
  ; (3, lit "separator")
  ; (4, lit "log")
  ; (5, lit "sdl")
  ; (6, lit "dos")
  ; (7, lit "dosbox")
  ; (8, lit "cpu")
  ; (9, lit "render")
  ; (10, lit "mixer")
  ; (11, lit "sblaster")
  ; (12, lit "midi")
  ; (13, lit "gus")
  ; (14, lit "speaker")
  ; (15, lit "innova")
  ; (16, lit "joystick")
  ; (17, lit "serial")
  ; (18, lit "printer")
  ; (19, lit "parallel")
  ; (20, lit "glide")
  ; (21, lit "voodoo")
  ; (22, lit "pci")
  ; (23, lit "vsync")
  ; (24, lit "keyboard")
  ; (25, lit "ne2000")
  ; (26, lit "fdc, primary")
  ; (27, lit "ide, primary")
  ; (28, lit "ide, secondary")
  ; (29, lit "ide, tertiary")
  ; (30, lit "ide, quaternary")
  ; (31, lit "mapper")
  ; (32, lit "ethernet, pcap")
  ; (33, lit "ethernet, slirp")
  ; (34, lit "fluidsynth")
  ; (35, lit "video")
  ; (36, lit "pc98")
  ; (37, lit "ttf")
  ; (38, lit "config")
  ; (39, lit "dosv") ].

Definition SECTION_ITEMS : Table (Table str) :=
  [ (0,
      [ (0, lit "version")
        ; (1, lit "DirectX")
        ; (2, lit "Menu")
        ; (3, lit "SavePath")
        ; (4, lit "SetAspect") ])
  ; (1,
      [ (0, lit "9xdrv")
        ; (1, lit "9xres")
        ; (2, lit "9xddraw")
        ; (3, lit "9xd3d")
        ; (4, lit "9x3dfx")
        ; (5, lit "9xmpu")
        ; (6, lit "9xmaster")
        ; (7, lit "9xwave")
        ; (8, lit "9xmidi")
        ; (9, lit "9xcd")
        ; (10, lit "9xboot") ])
  ; (2,
      [ (0, lit "PCem_Machine")
        ; (1, lit "PCem_CPU")
        ; (2, lit "PCem_Video_Speed")
        ; (3, lit "PCem_Voodoo")
        ; (4, lit "PCem_Voodoo_Type") ])
  ; (4,
      [ (0, lit "log")
        ; (1, lit "logfile")
        ; (2, lit "debuggerrun")
        ; (3, lit "vga")
        ; (4, lit "vgagfx")
        ; (5, lit "vgamisc")
        ; (6, lit "int10")
        ; (7, lit "sblaster")
        ; (8, lit "dma_control")
        ; (9, lit "fpu")
        ; (10, lit "cpu")
        ; (11, lit "paging")
        ; (12, lit "fcb")
        ; (13, lit "files")
        ; (14, lit "ioctl")
        ; (15, lit "exec")
        ; (16, lit "dosmisc")
        ; (17, lit "pit")
        ; (18, lit "keyboard")
        ; (19, lit "pic")
        ; (20, lit "mouse")
        ; (21, lit "bios")
        ; (22, lit "gui")
        ; (23, lit "misc")
        ; (24, lit "io")
        ; (25, lit "pci")
        ; (26, lit "sst") ])
  ; (5,
      [ (0, lit "fullscreen")
        ; (1, lit "fulldouble")
        ; (2, lit "fullresolution")
        ; (3, lit "windowresolution")
        ; (4, lit "output")
        ; (5, lit "autolock")
        ; (6, lit "sensitivity")
        ; (7, lit "waitonerror")
        ; (8, lit "priority")
        ; (9, lit "mapperfile")
        ; (10, lit "usescancodes")
        ; (11, lit "overscan")
        ; (12, lit "pixelshader")
        ; (13, lit "autolock_feedback")
        ; (14, lit "mouse_emulation")
        ; (15, lit "clip_mouse_button")
        ; (16, lit "clip_key_modifier")
        ; (17, lit "clip_paste_speed")
        ; (18, lit "mouse_wheel_key")
        ; (19, lit "display")
        ; (20, lit "videodriver")
        ; (21, lit "transparency")
        ; (22, lit "maximize")
        ; (23, lit "middle_unlock")
        ; (24, lit "clip_paste_bios")
        ; (25, lit "usesystemcursor")
        ; (26, lit "showbasic")
        ; (27, lit "showdetails")
        ; (28, lit "texture_renderer")
        ; (29, lit "capture_mouse")
        ; (30, lit "raw_mouse_input")
        ; (31, lit "screensaver")
        ; (32, lit "windowposition")
        ; (33, lit "showmenu") ])
  ; (6,
      [ (0, lit "xms")
        ; (1, lit "ems")
        ; (2, lit "umb")
        ; (3, lit "keyboardlayout")
        ; (4, lit "enable a20 on windows init")
        ; (5, lit "zero memory on xms memory allocation")
        ; (6, lit "zero memory on ems memory allocation")
        ; (7, lit "ems system handle memory size")
        ; (8, lit "umb start")
        ; (9, lit "umb end")
        ; (10, lit "kernel allocation in umb")
        ; (11, lit "dynamic kernel allocation")
        ; (12, lit "keep umb on boot")
        ; (13, lit "keep private area on boot")
        ; (14, lit "private area in umb")
        ; (15, lit "automount")
        ; (16, lit "int33")
        ; (17, lit "int 13 extensions")
        ; (18, lit "biosps2")
        ; (19, lit "int15 mouse callback does not preserve registers")
        ; (20, lit "dbcs")
        ; (21, lit "filenamechar")
        ; (22, lit "collating and uppercase")
        ; (23, lit "files")
        ; (24, lit "con device use int 16h to detect keyboard input")
        ; (25, lit "zero memory on int 21h memory allocation")
        ; (26, lit "hma")
        ; (27, lit "hma allow reservation")
        ; (28, lit "hma minimum allocation")
        ; (29, lit "log console")
        ; (30, lit "dos in hma")
        ; (31, lit "hma free space")
        ; (32, lit "cpm compatibility mode")
        ; (33, lit "share")
        ; (34, lit "write plain iretf for debug interrupts")
        ; (35, lit "minimum dos initial private segment")
        ; (36, lit "minimum mcb segment")
        ; (37, lit "enable dummy device mcb")
        ; (38, lit "maximum environment block size on exec")
        ; (39, lit "additional environment block size on exec")
        ; (40, lit "dosv")
        ; (41, lit "vcpi")
        ; (42, lit "unmask timer on disk io")
        ; (43, lit "zero int 67h if no ems")
        ; (44, lit "emm386 startup active")
        ; (45, lit "ems system handle on even megabyte")
        ; (46, lit "ver")
        ; (47, lit "int15 wait force unmask irq")
        ; (48, lit "hard drive data rate limit")
        ; (49, lit "dos sda size")
        ; (50, lit "minimum mcb free")
        ; (51, lit "xms handles")
        ; (52, lit "shell configuration as commands")
        ; (53, lit "int33 disable cell granularity")
        ; (54, lit "int33 hide host cursor if interrupt subroutine")
        ; (55, lit "int33 hide host cursor when polling")
        ; (56, lit "ansi.sys")
        ; (57, lit "quick reboot")
        ; (58, lit "lfn")
        ; (59, lit "automountall")
        ; (60, lit "mountwarning")
        ; (61, lit "autofixwarning")
        ; (62, lit "startcmd")
        ; (63, lit "startwait")
        ; (64, lit "startquiet")
        ; (65, lit "dos clipboard device enable")
        ; (66, lit "dos clipboard device name")
        ; (67, lit "dos clipboard api")
        ; (68, lit "floppy drive data rate limit")
        ; (69, lit "file access tries")
        ; (70, lit "network redirector")
        ; (71, lit "fat32setversion")
        ; (72, lit "shellhigh")
        ; (73, lit "starttranspath")
        ; (74, lit "vmware")
        ; (75, lit "customcodepage") ])
  ; (7,
      [ (0, lit "language")
        ; (1, lit "machine")
        ; (2, lit "captures")
        ; (3, lit "memsize")
        ; (4, lit "vmemsize")
        ; (5, lit "vmemsizekb")
        ; (6, lit "cgasnow")
        ; (7, lit "forcerate")
        ; (8, lit "mainline compatible mapping")
        ; (9, lit "mainline compatible bios mapping")
        ; (10, lit "adapter rom is ram")
        ; (11, lit "shell environment size")
        ; (12, lit "private area size")
        ; (13, lit "a20")
        ; (14, lit "isa bus clock")
        ; (15, lit "pci bus clock")
        ; (16, lit "rom bios allocation max")
        ; (17, lit "rom bios minimum size")
        ; (18, lit "memsizekb")
        ; (19, lit "dos mem limit")
        ; (20, lit "isa memory hole at 512kb")
        ; (21, lit "memalias")
        ; (22, lit "vga bios size override")
        ; (23, lit "video bios dont duplicate cga first half rom font")
        ; (24, lit "video bios always offer 14-pixel high rom font")
        ; (25, lit "video bios always offer 16-pixel high rom font")
        ; (26, lit "video bios enable cga second half rom font")
        ; (27, lit "sierra ramdac")
        ; (28, lit "sierra ramdac lock 565")
        ; (29, lit "page flip debug line")
        ; (30, lit "vertical retrace poll debug line")
        ; (31, lit "allow port 92 reset")
        ; (32, lit "enable port 92")
        ; (33, lit "enable 1st dma controller")
        ; (34, lit "enable 2nd dma controller")
        ; (35, lit "allow dma address decrement")
        ; (36, lit "enable dma extra page registers")
        ; (37, lit "dma page registers write-only")
        ; (38, lit "enable slave pic")
        ; (39, lit "enable pc nmi mask")
        ; (40, lit "rom bios 8x8 CGA font")
        ; (41, lit "rom bios video parameter table")
        ; (42, lit "allow more than 640kb base memory")
        ; (43, lit "vesa lfb base scanline adjust")
        ; (44, lit "allow hpel effects")
        ; (45, lit "allow hretrace effects")
        ; (46, lit "hretrace effect weight")
        ; (47, lit "vesa vbe 1.2 modes are 32bpp")
        ; (48, lit "allow low resolution vesa modes")
        ; (49, lit "allow 32bpp vesa modes")
        ; (50, lit "allow 24bpp vesa modes")
        ; (51, lit "allow 16bpp vesa modes")
        ; (52, lit "allow 15bpp vesa modes")
        ; (53, lit "allow 8bpp vesa modes")
        ; (54, lit "allow 4bpp vesa modes")
        ; (55, lit "allow tty vesa modes")
        ; (56, lit "enable vga resize delay")
        ; (57, lit "resize only on vga active display width increase")
        ; (58, lit "enable pci bus") ])
  ; (8,
      [ (0, lit "core")
        ; (1, lit "cputype")
        ; (2, lit "cycles")
        ; (3, lit "cycleup")
        ; (4, lit "cycledown")
        ; (5, lit "isapnpbios")
        ; (6, lit "enable msr")
        ; (7, lit "ignore undefined msr")
        ; (8, lit "dynamic core cache block size")
        ; (9, lit "non-recursive page fault")
        ; (10, lit "ignore opcode 63")
        ; (11, lit "apmbios")
        ; (12, lit "apmbios allow realmode")
        ; (13, lit "apmbios allow 16-bit protected mode")
        ; (14, lit "apmbios allow 32-bit protected mode")
        ; (15, lit "integration device")
        ; (16, lit "realbig16")
        ; (17, lit "fpu")
        ; (18, lit "segment limits")
        ; (19, lit "double fault")
        ; (20, lit "reset on triple fault")
        ; (21, lit "always report double fault")
        ; (22, lit "always report triple fault")
        ; (23, lit "enable cmpxchg8b")
        ; (24, lit "interruptible rep string op")
        ; (25, lit "apmbios pnp")
        ; (26, lit "apmbios version")
        ; (27, lit "integration device pnp")
        ; (28, lit "use dynamic core with paging on")
        ; (29, lit "turbo") ])
  ; (9,
      [ (0, lit "frameskip")
        ; (1, lit "aspect")
        ; (2, lit "scaler")
        ; (3, lit "linewise")
        ; (4, lit "char9")
        ; (5, lit "multiscan")
        ; (6, lit "doublescan")
        ; (7, lit "autofit")
        ; (8, lit "xbrz slice")
        ; (9, lit "xbrz fixed scale factor")
        ; (10, lit "xbrz max scale factor")
        ; (11, lit "alt render")
        ; (12, lit "glshader")
        ; (13, lit "euro")
        ; (14, lit "monochrome_pal")
        ; (15, lit "aspect_ratio")
        ; (16, lit "monochrome_palette") ])
  ; (10,
      [ (0, lit "nosound")
        ; (1, lit "rate")
        ; (2, lit "blocksize")
        ; (3, lit "prebuffer")
        ; (4, lit "swapstereo")
        ; (5, lit "MASTER")
        ; (6, lit "SPKR")
        ; (7, lit "GUS")
        ; (8, lit "SB")
        ; (9, lit "FM")
        ; (10, lit "MT32")
        ; (11, lit "sample accurate")
        ; (12, lit "CDAUDIO") ])
  ; (11,
      [ (0, lit "sbtype")
        ; (1, lit "sbbase")
        ; (2, lit "irq")
        ; (3, lit "dma")
        ; (4, lit "hdma")
        ; (5, lit "sbmixer")
        ; (6, lit "oplmode")
        ; (7, lit "oplemu")
        ; (8, lit "oplrate")
        ; (9, lit "hardwarebase")
        ; (10, lit "goldplay")
        ; (11, lit "adlib force timer overflow on detect")
        ; (12, lit "force dsp auto-init")
        ; (13, lit "force goldplay")
        ; (14, lit "goldplay stereo")
        ; (15, lit "dsp require interrupt acknowledge")
        ; (16, lit "dsp write busy delay")
        ; (17, lit "blaster environment variable")
        ; (18, lit "sample rate limits")
        ; (19, lit "instant direct dac")
        ; (20, lit "stereo control with sbpro only")
        ; (21, lit "dsp busy cycle rate")
        ; (22, lit "dsp busy cycle duty")
        ; (23, lit "io port aliasing")
        ; (24, lit "mindma")
        ; (25, lit "irq hack")
        ; (26, lit "pic unmask irq")
        ; (27, lit "enable speaker")
        ; (28, lit "enable asp")
        ; (29, lit "disable filtering")
        ; (30, lit "dsp write buffer status must return 0x7f or 0xff")
        ; (31, lit "pre-set sbpro stereo")
        ; (32, lit "dsp busy cycle always")
        ; (33, lit "oplport")
        ; (34, lit "retrowave_bus")
        ; (35, lit "retrowave_port")
        ; (36, lit "fmstrength") ])
  ; (12,
      [ (0, lit "mpu401")
        ; (1, lit "mididevice")
        ; (2, lit "midiconfig")
        ; (3, lit "mt32.reverse.stereo")
        ; (4, lit "mt32.verbose")
        ; (5, lit "mt32.thread")
        ; (6, lit "mt32.dac")
        ; (7, lit "mt32.reverb.mode")
        ; (8, lit "mt32.reverb.time")
        ; (9, lit "mt32.reverb.level")
        ; (10, lit "mt32.partials")
        ; (11, lit "mpuirq")
        ; (12, lit "samplerate")
        ; (13, lit "mt32.romdir")
        ; (14, lit "mt32.reverb.output.gain")
        ; (15, lit "mt32.chunk")
        ; (16, lit "mt32.prebuffer")
        ; (17, lit "mt32.analog")
        ; (18, lit "mt32.output.gain")
        ; (19, lit "mt32.src.quality")
        ; (20, lit "mt32.niceampramp")
        ; (21, lit "fluid.driver")
        ; (22, lit "fluid.soundfont") ])
  ; (13,
      [ (0, lit "gus")
        ; (1, lit "gusrate")
        ; (2, lit "gusbase")
        ; (3, lit "gusirq")
        ; (4, lit "gusdma")
        ; (5, lit "gusmemsize")
        ; (6, lit "gus master volume")
        ; (7, lit "gustype")
        ; (8, lit "ultradir") ])
  ; (14,
      [ (0, lit "pcspeaker")
        ; (1, lit "pcrate")
        ; (2, lit "tandy")
        ; (3, lit "tandyrate")
        ; (4, lit "disney")
        ; (5, lit "ps1audio")
        ; (6, lit "ps1audiorate") ])
  ; (15,
      [ (0, lit "innova")
        ; (1, lit "samplerate")
        ; (2, lit "sidbase")
        ; (3, lit "quality") ])
  ; (16,
      [ (0, lit "joysticktype")
        ; (1, lit "timed")
        ; (2, lit "autofire")
        ; (3, lit "swap34")
        ; (4, lit "buttonwrap") ])
  ; (17,
      [ (0, lit "serial1")
        ; (1, lit "serial2")
        ; (2, lit "serial3")
        ; (3, lit "serial4") ])
  ; (18,
      [ (0, lit "printer")
        ; (1, lit "dpi")
        ; (2, lit "width")
        ; (3, lit "height")
        ; (4, lit "printoutput")
        ; (5, lit "multipage")
        ; (6, lit "docpath")
        ; (7, lit "timeout") ])
  ; (19,
      [ (0, lit "parallel1")
        ; (1, lit "parallel2")
        ; (2, lit "parallel3")
        ; (3, lit "dongle") ])
  ; (20,
      [ (0, lit "glide")
        ; (1, lit "lfb")
        ; (2, lit "splash")
        ; (3, lit "grport") ])
  ; (21,
      [ (0, lit "voodoo")
        ; (1, lit "voodoo_card")
        ; (2, lit "voodoo_maxmem")
        ; (3, lit "glide")
        ; (4, lit "lfb")
        ; (5, lit "splash") ])
  ; (22,
      [ (0, lit "voodoo")
        ; (1, lit "voodoomem") ])
  ; (23,
      [ (0, lit "vsyncmode")
        ; (1, lit "vsyncrate") ])
  ; (24,
      [ (0, lit "aux")
        ; (1, lit "allow output port reset")
        ; (2, lit "controllertype")
        ; (3, lit "auxdevice") ])
  ; (25,
      [ (0, lit "ne2000")
        ; (1, lit "nicbase")
        ; (2, lit "nicirq")
        ; (3, lit "macaddr")
        ; (4, lit "backend") ])
  ; (26,
      [ (0, lit "enable")
        ; (1, lit "pnp")
        ; (2, lit "mode") ])
  ; (27,
      [ (0, lit "enable")
        ; (1, lit "pnp")
        ; (2, lit "irq")
        ; (3, lit "io")
        ; (4, lit "altio")
        ; (5, lit "int13fakeio")
        ; (6, lit "int13fakev86io")
        ; (7, lit "enable pio32")
        ; (8, lit "ignore pio32")
        ; (9, lit "cd-rom spinup time")
        ; (10, lit "cd-rom spindown timeout")
        ; (11, lit "cd-rom insertion delay") ])
  ; (28,
      [ (0, lit "enable")
        ; (1, lit "pnp")
        ; (2, lit "irq")
        ; (3, lit "io")
        ; (4, lit "altio")
        ; (5, lit "int13fakeio")
        ; (6, lit "int13fakev86io")
        ; (7, lit "enable pio32")
        ; (8, lit "ignore pio32")
        ; (9, lit "cd-rom spinup time")
        ; (10, lit "cd-rom spindown timeout")
        ; (11, lit "cd-rom insertion delay") ])
  ; (29,
      [ (0, lit "enable")
        ; (1, lit "pnp") ])
  ; (30,
      [ (0, lit "enable")
        ; (1, lit "pnp") ])
  ; (31, [])
  ; (35,
      [ (0, lit "vmemsize")
        ; (1, lit "vmemsizekb")
        ; (2, lit "high intensity blinking") ])
  ; (38,
      [ (0, lit "rem")
        ; (1, lit "break")
        ; (2, lit "numlock")
        ; (3, lit "shell")
        ; (4, lit "dos")
        ; (5, lit "fcbs")
        ; (6, lit "files")
        ; (7, lit "country")
        ; (8, lit "lastdrive") ]) ].

(** [getKeyForEditConfEntry(section, item)]: [None] is [null]. *)
Definition getKeyForEditConfEntry (section item : Z) : option (str * str) :=
  let sectionName := tbl_get SECTION_NAMES section in
  if negb (truthy sectionName) then None
  else
    match tbl_get SECTION_ITEMS section with
    | None => None
    | Some items =>
        let keyName := tbl_get items item in
        if negb (truthy keyName) then None
        else match sectionName, keyName with
             | Some s, Some k => Some (s, k)
             | _, _ => None
             end
    end.

End OptionDat.

(** The tables of [src/services/dosbox-settings.ts]. *)
Module Services.

Definition SECTION_INDEX : Table str :=
  [ (0, lit "default")
  ; (1, lit "win9x")
  ; (2, lit "pcem")
  ; (3, lit "separator")
  ; (4, lit "log")
  ; (5, lit "sdl")
  ; (6, lit "dos")
  ; (7, lit "dosbox")
  ; (8, lit "cpu")
  ; (9, lit "render")
  ; (10, lit "mixer")
  ; (11, lit "sblaster")
  ; (12, lit "midi")
  ; (13, lit "gus")
  ; (14, lit "speaker")
  ; (15, lit "innova")
  ; (16, lit "joystick")
  ; (17, lit "serial")
  ; (18, lit "printer")
  ; (19, lit "parallel")
  ; (20, lit "glide")
  ; (21, lit "voodoo")
  ; (22, lit "pci")
  ; (23, lit "vsync")
  ; (24, lit "keyboard")
  ; (25, lit "ne2000")
  ; (26, lit "fdc, primary")
  ; (27, lit "ide, primary")
  ; (28, lit "ide, secondary")
  ; (29, lit "ide, tertiary")
  ; (30, lit "ide, quaternary")
  ; (31, lit "mapper")
  ; (32, lit "ethernet, pcap")
  ; (33, lit "ethernet, slirp")
  ; (34, lit "fluidsynth")
  ; (35, lit "video")
  ; (36, lit "pc98")
  ; (37, lit "ttf")
  ; (38, lit "config")
  ; (39, lit "dosv") ].

Definition SECTION_ITEMS : Table (Table str) :=
  [ (0,
      [ (0, lit "version")
        ; (1, lit "DirectX")
        ; (2, lit "Menu")
        ; (3, lit "SavePath")
        ; (4, lit "SetAspect") ])
  ; (1,
      [ (0, lit "9xdrv")
        ; (1, lit "9xres")
        ; (2, lit "9xddraw")
        ; (3, lit "9xd3d")
        ; (4, lit "9x3dfx")
        ; (5, lit "9xmpu")
        ; (6, lit "9xmaster")
        ; (7, lit "9xwave")
        ; (8, lit "9xmidi")
        ; (9, lit "9xcd")
        ; (10, lit "9xboot") ])
  ; (5,
      [ (0, lit "fullscreen")
        ; (1, lit "fulldouble")
        ; (2, lit "fullresolution")
        ; (3, lit "windowresolution")
        ; (4, lit "output")
        ; (5, lit "autolock")
        ; (6, lit "sensitivity")
        ; (7, lit "waitonerror")
        ; (8, lit "priority")
        ; (9, lit "mapperfile")
        ; (10, lit "usescancodes")
        ; (11, lit "overscan")
        ; (12, lit "pixelshader")
        ; (13, lit "autolock_feedback")
        ; (14, lit "mouse_emulation") ])
  ; (6,
      [ (0, lit "xms")
        ; (1, lit "ems")
        ; (2, lit "umb")
        ; (3, lit "keyboardlayout")
        ; (4, lit "enable a20 on windows init")
        ; (17, lit "int 13 extensions") ])
  ; (7,
      [ (0, lit "language")
        ; (1, lit "machine")
        ; (2, lit "captures")
        ; (3, lit "memsize")
        ; (4, lit "vmemsize")
        ; (5, lit "vmemsizekb")
        ; (58, lit "enable pci bus") ])
  ; (8,
      [ (0, lit "core")
        ; (1, lit "cputype")
        ; (2, lit "cycles")
        ; (3, lit "cycleup")
        ; (4, lit "cycledown")
        ; (5, lit "isapnpbios")
        ; (11, lit "apmbios") ])
  ; (9,
      [ (0, lit "frameskip")
        ; (1, lit "aspect")
        ; (2, lit "scaler") ])
  ; (10,
      [ (0, lit "nosound")
        ; (1, lit "rate")
        ; (2, lit "blocksize")
        ; (3, lit "prebuffer") ])
  ; (11,
      [ (0, lit "sbtype")
        ; (1, lit "sbbase")
        ; (2, lit "irq")
        ; (3, lit "dma")
        ; (4, lit "hdma")
        ; (5, lit "sbmixer")
        ; (6, lit "oplmode")
        ; (7, lit "oplemu")
        ; (8, lit "oplrate") ])
  ; (12,
      [ (0, lit "mpu401")
        ; (1, lit "mididevice")
        ; (2, lit "midiconfig") ])
  ; (13,
      [ (0, lit "gus")
        ; (1, lit "gusrate")
        ; (2, lit "gusbase")
        ; (3, lit "gusirq")
        ; (4, lit "gusdma") ])
  ; (14,
      [ (0, lit "pcspeaker")
        ; (1, lit "pcrate")
        ; (2, lit "tandy")
        ; (3, lit "tandyrate")
        ; (4, lit "disney") ])
  ; (16,
      [ (0, lit "joysticktype")
        ; (1, lit "timed")
        ; (2, lit "autofire")
        ; (3, lit "swap34")
        ; (4, lit "buttonwrap") ])
  ; (20,
      [ (0, lit "glide")
        ; (1, lit "lfb")
        ; (2, lit "splash") ])
  ; (21,
      [ (0, lit "voodoo")
        ; (1, lit "voodoomem") ])
  ; (22,
      [ (0, lit "voodoo")
        ; (1, lit "voodoomem") ])
  ; (27,
      [ (0, lit "enable")
        ; (1, lit "pnp")
        ; (2, lit "irq")
        ; (3, lit "io")
        ; (4, lit "altio")
        ; (5, lit "int13fakeio")
        ; (6, lit "int13fakev86io")
        ; (7, lit "enable pio32")
        ; (8, lit "ignore pio32")
        ; (9, lit "cd-rom spinup time")
        ; (10, lit "cd-rom spindown timeout")
        ; (11, lit "cd-rom insertion delay") ])
  ; (28,
      [ (0, lit "enable")
        ; (1, lit "pnp")
        ; (2, lit "irq")
        ; (3, lit "io")
        ; (4, lit "altio")
        ; (5, lit "int13fakeio")
        ; (6, lit "int13fakev86io")
        ; (7, lit "enable pio32")
        ; (8, lit "ignore pio32")
        ; (9, lit "cd-rom spinup time")
        ; (10, lit "cd-rom spindown timeout")
        ; (11, lit "cd-rom insertion delay") ]) ].

Definition SECTION_INDEX_LEGACY : Table str :=
  [ (0, lit "default")
  ; (1, lit "win9x")
  ; (2, lit "pcem")
  ; (3, lit "dosbox")
  ; (6, lit "cpu")
  ; (19, lit "glide")
  ; (21, lit "voodoo")
  ; (32, lit "ethernet, pcap") ].

Definition SECTION_ITEMS_LEGACY : Table (Table str) :=
  [ (0,
      [ (0, lit "version") ])
  ; (1,
      [ (0, lit "9xdrv")
        ; (1, lit "9xres")
        ; (2, lit "9xddraw")
        ; (3, lit "9xd3d")
        ; (4, lit "9x3dfx")
        ; (5, lit "9xmpu")
        ; (6, lit "9xmaster")
        ; (7, lit "9xwave")
        ; (8, lit "9xmidi")
        ; (9, lit "9xcd")
        ; (10, lit "9xboot") ])
  ; (3,
      [ (1, lit "machine")
        ; (3, lit "memsize")
        ; (4, lit "vmemsize") ])
  ; (6,
      [ (0, lit "core")
        ; (1, lit "cputype")
        ; (2, lit "cycles")
        ; (5, lit "isapnpbios")
        ; (11, lit "apmbios") ])
  ; (19,
      [ (0, lit "mouse_emulation") ])
  ; (21,
      [ (1, lit "9xres") ])
  ; (32,
      [ (11, lit "cd-rom insertion delay") ]) ].

End Services.

(** The tables of the later revision of [dosbox-settings.ts]: the current
    schema is re-exported from [option-dat.ts]; the legacy tables no longer
    define section 21. *)
Module Mapper.

Definition SECTION_INDEX : Table str := OptionDat.SECTION_NAMES.
Definition SECTION_ITEMS : Table (Table str) := OptionDat.SECTION_ITEMS.

Definition SECTION_INDEX_LEGACY : Table str :=
  [ (0, lit "default")
  ; (1, lit "win9x")
  ; (2, lit "pcem")
  ; (3, lit "dosbox")
  ; (6, lit "cpu")
  ; (19, lit "glide")
  ; (32, lit "ide, secondary") ].

Definition SECTION_ITEMS_LEGACY : Table (Table str) :=
  [ (0,
      [ (0, lit "version") ])
  ; (1,
      [ (0, lit "9xdrv")
        ; (1, lit "9xres")
        ; (2, lit "9xddraw")
        ; (3, lit "9xd3d")
        ; (4, lit "9x3dfx")
        ; (5, lit "9xmpu")
        ; (6, lit "9xmaster")
        ; (7, lit "9xwave")
        ; (8, lit "9xmidi")
        ; (9, lit "9xcd")
        ; (10, lit "9xboot") ])
  ; (3,
      [ (1, lit "machine")
        ; (3, lit "memsize")
        ; (4, lit "vmemsize") ])
  ; (6,
      [ (0, lit "core")
        ; (1, lit "cputype")
        ; (2, lit "cycles")
        ; (5, lit "isapnpbios")
        ; (11, lit "apmbios") ])
  ; (19,
      [ (0, lit "glide") ])
  ; (32,
      [ (11, lit "cd-rom insertion delay") ]) ].

End Mapper.

(** What differs between the two revisions of [dosbox-settings.ts]: the four
    tables and the sections [settingsToConfString] refuses to emit. *)
Record Revision : Type := {
  SECTION_INDEX : Table str;
  SECTION_ITEMS : Table (Table str);
  SECTION_INDEX_LEGACY : Table str;
  SECTION_ITEMS_LEGACY : Table (Table str);
  special_sections : list str
}.

Definition services : Revision := {|
  SECTION_INDEX := Services.SECTION_INDEX;
  SECTION_ITEMS := Services.SECTION_ITEMS;
  SECTION_INDEX_LEGACY := Services.SECTION_INDEX_LEGACY;
  SECTION_ITEMS_LEGACY := Services.SECTION_ITEMS_LEGACY;
  special_sections :=
    [lit "default"; lit "win9x"; lit "pcem"; lit "separator"]
|}.

Definition mapper : Revision := {|
  SECTION_INDEX := Mapper.SECTION_INDEX;
  SECTION_ITEMS := Mapper.SECTION_ITEMS;
  SECTION_INDEX_LEGACY := Mapper.SECTION_INDEX_LEGACY;
  SECTION_ITEMS_LEGACY := Mapper.SECTION_ITEMS_LEGACY;
  special_sections :=
    [lit "default"; lit "win9x"; lit "pcem"; lit "separator"; lit "glide"]
|}.

(* ================================================================== *)
(** * Entry parser ([dosbox-settings.ts]) *)
(* ================================================================== *)

Definition LF : ascii := ascii_of_nat 10.

(** [content.split('\n')]. *)
Definition lines_of (content : str) : list str := split LF content.

(** The first line that, trimmed, starts with [ver.] decides: its text after
    the four-character prefix, dots removed, goes through [parseInt]; NaN
    becomes 0.  No such line: 0. *)
Fixpoint version_of_lines (lines : list str) : Z :=
  match lines with
  | [] => 0
  | line :: rest =>
      let trimmed := trim line in
      if startsWith (lit "ver.") trimmed then
        let versionStr := removeAll "." (drop 4 trimmed) in
        let version := parseInt versionStr in
        match version with
        | None => 0
        | Some v => v
        end
      else version_of_lines rest
  end.

Definition parseEditConfVersion (content : str) : Z :=
  version_of_lines (lines_of content).

Definition isLegacyVersion (version : Z) : bool := version <? 220000.

Record EditConfEntry : Type := mkEntry {
  section : Z;
  item : Z;
  value : str
}.

(** Body of the loop of [parseEditConf] for one line: the entry it pushes,
    if any. *)
Definition parseEditConf_line (line : str) : option EditConfEntry :=
  let trimmed := trim line in
  if startsWith (lit "ver.") trimmed || str_eqb trimmed [] then None
  else
    let parts := split "|" trimmed in
    if (3 <=? Z.of_nat (length parts)) then
      let section := parseInt (nth 0 parts []) in
      let item := parseInt (nth 1 parts []) in
      let value := join (lit "|") (drop 2 parts) in
      match section, item with
      | Some section, Some item => Some (mkEntry section item value)
      | _, _ => None
      end
    else None.

Definition parseEditConf (content : str) : list EditConfEntry :=
  omap parseEditConf_line (lines_of content).

(* ================================================================== *)
(** * Settings resolver ([dosbox-settings.ts]) *)
(* ================================================================== *)

(** [DosboxSettings]: section name to (key to value). *)
Definition DosboxSettings : Type := obj (obj str).

(** Body of the loop of [convertEditConfToSettings] for one entry. *)
Definition convert_entry (sectionIndex : Table str)
    (sectionItems : Table (Table str))
    (settings : DosboxSettings) (entry : EditConfEntry) : DosboxSettings :=
  let sectionName := tbl_get sectionIndex (section entry) in
  let itemsMap := tbl_get sectionItems (section entry) in
  match sectionName, itemsMap with
  | Some sectionName, Some itemsMap =>
      if negb (truthy (Some sectionName)) then settings
      else
        match tbl_get itemsMap (item entry) with
        | Some keyName =>
            if negb (truthy (Some keyName)) then settings
            else
              let items :=
                match obj_get settings sectionName with
                | Some items => items
                | None => []
                end in
              obj_set settings sectionName (obj_set items keyName (value entry))
        | None => settings
        end
  | _, _ => settings
  end.

Definition convertEditConfToSettings (R : Revision)
    (entries : list EditConfEntry) (isLegacy : bool) : DosboxSettings :=
  let sectionIndex :=
    if isLegacy then SECTION_INDEX_LEGACY R else SECTION_INDEX R in
  let sectionItems :=
    if isLegacy then SECTION_ITEMS_LEGACY R else SECTION_ITEMS R in
  fold_left (convert_entry sectionIndex sectionItems) entries [].

(** [merged[section][key] = value] once [merged[section]] exists. *)
Definition obj_set2 (o : DosboxSettings) (s k v : str) : DosboxSettings :=
  match obj_get o s with
  | Some items => obj_set o s (obj_set items k v)
  | None => o
  end.

(** [mergeSettings] on values: what the returned object holds.  The
    reference-level version, with the deep copy and the mutations, is
    [Store.mergeSettings]. *)
Definition merge_section (merged : DosboxSettings)
    (sec : str * obj str) : DosboxSettings :=
  let '(section, items) := sec in
  let merged1 :=
    match obj_get merged section with
    | Some _ => merged
    | None => obj_set merged section []
    end in
  fold_left (fun m kv => obj_set2 m section (fst kv) (snd kv)) items merged1.

Definition mergeSettings (base override : DosboxSettings) : DosboxSettings :=
  fold_left merge_section override base.

(* ================================================================== *)
(** * Win9x extension resolver ([dosbox-settings.ts]) *)
(* ================================================================== *)

Record Resolution : Type := mkRes {
  width : Z;
  height : Z;
  bitsPerPixel : Z
}.

Inductive MidiDriver : Type := SBFM | MPU401.

Record Volumes : Type := mkVol {
  master : Z;
  wave : Z;
  midi : Z;
  cd : Z
}.

Record Win9xSettings : Type := mkWin9x {
  resolution : Resolution;
  ddraw : bool;
  d3d : bool;
  threeDfx : bool;
  midiDriver : MidiDriver;
  volumes : Volumes
}.

(** Leftmost match of [/(\d+)x(\d+)/]: the two captured digit runs.  A match
    can only start at a digit; both groups are greedy, and a shorter first
    group never helps, since the character after it would be a digit. *)
Fixpoint match_resolution (s : str) : option (str * str) :=
  match s with
  | [] => None
  | c :: s' =>
      if is_digit c then
        match dropWhile is_digit s with
        | x :: b :: r =>
            if ch_eqb x "x" && is_digit b
            then Some (takeWhile is_digit s, takeWhile is_digit (b :: r))
            else match_resolution s'
        | _ => match_resolution s'
        end
      else match_resolution s'
  end.

Definition heightMap : Table Z :=
  [ (640, 480); (800, 600); (1024, 768); (1152, 864); (1280, 960);
    (1600, 1200) ].

(** [x || d] on numbers: 0 and [undefined] are falsy. *)
Definition num_or (x : option Z) (d : Z) : Z :=
  match x with
  | Some 0 => d
  | Some n => n
  | None => d
  end.

Definition default_resolution : Resolution := mkRes 640 480 8.

Definition parse9xResolution (value : str) : Resolution :=
  match match_resolution value with
  | None => default_resolution
  | Some (m1, m2) =>
      match m1, m2 with
      | [], _ | _, [] => default_resolution
      | _, _ =>
          let width := decimal m1 in
          let bitsPerPixel := decimal m2 in
          let height := num_or (tbl_get heightMap width) 480 in
          mkRes width height bitsPerPixel
      end
  end.

Definition win9x_defaults : Win9xSettings :=
  mkWin9x default_resolution true true true SBFM (mkVol 255 255 255 128).

Definition set_resolution (d : Win9xSettings) (r : Resolution) :=
  mkWin9x r (ddraw d) (d3d d) (threeDfx d) (midiDriver d) (volumes d).
Definition set_volumes (d : Win9xSettings) (v : Volumes) :=
  mkWin9x (resolution d) (ddraw d) (d3d d) (threeDfx d) (midiDriver d) v.

(** [parseInt(v, 10) || d]: NaN and 0 both give [d]. *)
Definition volume_of (v : str) (d : Z) : Z := num_or (parseInt v) d.

(** Body of the loop of [extractWin9xSettings] for one entry; the [switch]
    compares [entry.item] with each case label in turn. *)
Definition extract_entry (isLegacy : bool) (defaults : Win9xSettings)
    (entry : EditConfEntry) : Win9xSettings :=
  if isLegacy && (section entry =? 21) && (item entry =? 1) then
    set_resolution defaults (parse9xResolution (value entry))
  else if negb (section entry =? 1) then defaults
  else
    let vols := volumes defaults in
    if item entry =? 1 then
      set_resolution defaults (parse9xResolution (value entry))
    else if item entry =? 2 then
      mkWin9x (resolution defaults)
        (str_eqb (value entry) (lit "true")) (d3d defaults)
        (threeDfx defaults) (midiDriver defaults) vols
    else if item entry =? 3 then
      mkWin9x (resolution defaults) (ddraw defaults)
        (str_eqb (value entry) (lit "true"))
        (threeDfx defaults) (midiDriver defaults) vols
    else if item entry =? 4 then
      mkWin9x (resolution defaults) (ddraw defaults) (d3d defaults)
        (str_eqb (value entry) (lit "true")) (midiDriver defaults) vols
    else if item entry =? 5 then
      mkWin9x (resolution defaults) (ddraw defaults) (d3d defaults)
        (threeDfx defaults)
        (if str_eqb (value entry) (lit "MPU401") then MPU401 else SBFM)
        vols
    else if item entry =? 6 then
      set_volumes defaults
        (mkVol (volume_of (value entry) 255) (wave vols) (midi vols) (cd vols))
    else if item entry =? 7 then
      set_volumes defaults
        (mkVol (master vols) (volume_of (value entry) 255) (midi vols) (cd vols))
    else if item entry =? 8 then
      set_volumes defaults
        (mkVol (master vols) (wave vols) (volume_of (value entry) 255) (cd vols))
    else if item entry =? 9 then
      set_volumes defaults
        (mkVol (master vols) (wave vols) (midi vols)
               (volume_of (value entry) 128))
    else defaults.

Definition extractWin9xSettings (entries : list EditConfEntry)
    (isLegacy : bool) : Win9xSettings :=
  fold_left (extract_entry isLegacy) entries win9x_defaults.

(* ================================================================== *)
(** * Config document assembler ([dosbox-settings.ts]) *)
(* ================================================================== *)

(** [section === 'default' || section === 'win9x' || ...]. *)
Definition is_special (R : Revision) (section : str) : bool :=
  existsb (str_eqb section) (special_sections R).

(** The lines one emitted section pushes: header, [key=value] lines, and an
    empty line. *)
Definition section_lines (sec : str * obj str) : list str :=
  (lit "[" ++ fst sec ++ lit "]")
  :: map (fun kv => fst kv ++ lit "=" ++ snd kv) (snd sec) ++ [ [] ].

(** The [lines] array of [settingsToConfString] when its loop ends. *)
Definition conf_lines (R : Revision) (settings : DosboxSettings) : list str :=
  flat_map (fun sec => if is_special R (fst sec) then [] else section_lines sec)
           settings.

Definition settingsToConfString (R : Revision)
    (settings : DosboxSettings) : str :=
  join [LF] (conf_lines R settings).

(** [generateDosboxConf(settings, autoexec, header?)]: [header] is [None] when
    the argument is omitted. *)
Definition generateDosboxConf (R : Revision) (settings : DosboxSettings)
    (autoexec : str) (header : option str) : str :=
  let lines :=
    (if truthy header then
       match header with Some h => [h; []] | None => [] end
     else [])
    ++ [settingsToConfString R settings; lit "[autoexec]"; autoexec] in
  trim (join [LF] lines).

(* ================================================================== *)
(** * Template engine ([template-loader.ts], [defaults.ts]) *)
(* ================================================================== *)

(** [defaults.ts]: the global default table. *)
Definition WIN9X_DEFAULTS : obj str :=
  [ (lit "sdl_fullscreen", lit "false")
  ; (lit "sdl_fulldouble", lit "false")
  ; (lit "sdl_fullresolution", lit "desktop")
  ; (lit "sdl_windowresolution", lit "1024x768")
  ; (lit "sdl_windowposition", lit "")
  ; (lit "sdl_display", lit "0")
  ; (lit "sdl_output", lit "opengl")
  ; (lit "sdl_videodriver", lit "")
  ; (lit "sdl_transparency", lit "0")
  ; (lit "sdl_maximize", lit "false")
  ; (lit "sdl_autolock", lit "true")
  ; (lit "sdl_autolock_feedback", lit "none")
  ; (lit "sdl_middle_unlock", lit "none")
  ; (lit "sdl_clip_mouse_button", lit "none")
  ; (lit "sdl_clip_key_modifier", lit "none")
  ; (lit "sdl_clip_paste_bios", lit "default")
  ; (lit "sdl_clip_paste_speed", lit "30")
  ; (lit "sdl_sensitivity", lit "50")
  ; (lit "sdl_usesystemcursor", lit "false")
  ; (lit "sdl_mouse_emulation", lit "locked")
  ; (lit "sdl_mouse_wheel_key", lit "-1")
  ; (lit "sdl_waitonerror", lit "false")
  ; (lit "sdl_priority", lit "higher")
  ; (lit "sdl_mapperfile", lit "W9X-x.txt")
  ; (lit "sdl_usescancodes", lit "false")
  ; (lit "sdl_overscan", lit "0")
  ; (lit "sdl_pixelshader", lit "none")
  ; (lit "sdl_showbasic", lit "true")
  ; (lit "sdl_showdetails", lit "false")
  ; (lit "sdl_showmenu", lit "true")
  ; (lit "log_logfile", lit "")
  ; (lit "log_debuggerrun", lit "normal")
  ; (lit "dosbox_language", lit "")
  ; (lit "dosbox_fastbioslogo", lit "true")
  ; (lit "dosbox_startbanner", lit "false")
  ; (lit "dosbox_bannercolortheme", lit "default")
  ; (lit "dosbox_dpi aware", lit "false")
  ; (lit "dosbox_quit warning", lit "false")
  ; (lit "dosbox_working directory option", lit "default")
  ; (lit "dosbox_working directory default", lit "")
  ; (lit "dosbox_show advanced options", lit "false")
  ; (lit "dosbox_resolve config path", lit "true")
  ; (lit "dosbox_hostkey", lit "mapper")
  ; (lit "dosbox_mapper send key", lit "ctrlaltdel")
  ; (lit "dosbox_ime", lit "auto")
  ; (lit "dosbox_synchronize time", lit "false")
  ; (lit "dosbox_machine", lit "svga_s3")
  ; (lit "dosbox_captures", lit "dosbox")
  ; (lit "dosbox_autosave", lit "")
  ; (lit "dosbox_saveslot", lit "1")
  ; (lit "dosbox_savefile", lit "")
  ; (lit "dosbox_saveremark", lit "true")
  ; (lit "dosbox_forceloadstate", lit "false")
  ; (lit "dosbox_a20", lit "fast")
  ; (lit "dosbox_memsize", lit "256")
  ; (lit "dosbox_nocachedir", lit "false")
  ; (lit "dosbox_freesizecap", lit "cap")
  ; (lit "dosbox_convertdrivefat", lit "true")
  ; (lit "dosbox_vmemsize", lit "4")
  ; (lit "dosbox_vmemsizekb", lit "0")
  ; (lit "render_frameskip", lit "0")
  ; (lit "render_aspect", lit "true")
  ; (lit "render_aspect_ratio", lit "0:0")
  ; (lit "render_char9", lit "true")
  ; (lit "render_euro", lit "-1")
  ; (lit "render_doublescan", lit "true")
  ; (lit "render_scaler", lit "hardware2x")
  ; (lit "render_glshader", lit "none")
  ; (lit "render_autofit", lit "true")
  ; (lit "render_monochrome_pal", lit "green")
  ; (lit "pc98_pc-98 BIOS copyright string", lit "true")
  ; (lit "pc98_pc-98 fm board", lit "auto")
  ; (lit "pc98_pc-98 enable 256-color", lit "true")
  ; (lit "pc98_pc-98 enable 16-color", lit "true")
  ; (lit "pc98_pc-98 enable grcg", lit "true")
  ; (lit "pc98_pc-98 enable egc", lit "true")
  ; (lit "pc98_pc-98 bus mouse", lit "true")
  ; (lit "pc98_pc-98 force ibm keyboard layout", lit "false")
  ; (lit "pc98_pc-98 try font rom", lit "true")
  ; (lit "pc98_pc-98 anex86 font", lit "")
  ; (lit "dosv_dosv", lit "off")
  ; (lit "dosv_getsysfont", lit "true")
  ; (lit "dosv_fontxsbcs", lit "")
  ; (lit "dosv_fontxsbcs16", lit "")
  ; (lit "dosv_fontxsbcs24", lit "")
  ; (lit "dosv_fontxdbcs", lit "")
  ; (lit "dosv_fontxdbcs14", lit "")
  ; (lit "dosv_fontxdbcs24", lit "")
  ; (lit "dosv_showdbcsnodosv", lit "true")
  ; (lit "dosv_yen", lit "false")
  ; (lit "dosv_fepcontrol", lit "ias")
  ; (lit "dosv_vtext1", lit "svga")
  ; (lit "dosv_vtext2", lit "svga")
  ; (lit "dosv_use20pixelfont", lit "false")
  ; (lit "dosv_j3100", lit "off")
  ; (lit "dosv_j3100type", lit "default")
  ; (lit "dosv_j3100colorscroll", lit "false")
  ; (lit "video_high intensity blinking", lit "true")
  ; (lit "vsync_vsyncmode", lit "off")
  ; (lit "vsync_vsyncrate", lit "75")
  ; (lit "cpu_core", lit "dynamic")
  ; (lit "cpu_fpu", lit "true")
  ; (lit "cpu_segment limits", lit "true")
  ; (lit "cpu_cputype", lit "pentium")
  ; (lit "cpu_cycles", lit "max")
  ; (lit "cpu_cycleup", lit "150")
  ; (lit "cpu_cycledown", lit "100")
  ; (lit "cpu_turbo", lit "false")
  ; (lit "cpu_apmbios", lit "false")
  ; (lit "cpu_integration device", lit "false")
  ; (lit "cpu_isapnpbios", lit "false")
  ; (lit "keyboard_aux", lit "false")
  ; (lit "keyboard_allow output port reset", lit "true")
  ; (lit "keyboard_controllertype", lit "auto")
  ; (lit "keyboard_auxdevice", lit "intellimouse")
  ; (lit "ttf_font", lit "")
  ; (lit "ttf_fontbold", lit "")
  ; (lit "ttf_fontital", lit "")
  ; (lit "ttf_fontboit", lit "")
  ; (lit "ttf_colors", lit "")
  ; (lit "ttf_outputswitch", lit "auto")
  ; (lit "ttf_winperc", lit "60")
  ; (lit "ttf_ptsize", lit "0")
  ; (lit "ttf_lins", lit "0")
  ; (lit "ttf_cols", lit "0")
  ; (lit "ttf_righttoleft", lit "false")
  ; (lit "ttf_wp", lit "")
  ; (lit "ttf_bold", lit "true")
  ; (lit "ttf_italic", lit "true")
  ; (lit "ttf_underline", lit "true")
  ; (lit "ttf_strikeout", lit "false")
  ; (lit "ttf_printfont", lit "true")
  ; (lit "ttf_autodbcs", lit "true")
  ; (lit "ttf_blinkc", lit "true")
  ; (lit "ttf_gbk", lit "false")
  ; (lit "ttf_chinasea", lit "false")
  ; (lit "ttf_dosvfunc", lit "false")
  ; (lit "voodoo_voodoo_card", lit "false")
  ; (lit "voodoo_voodoo_maxmem", lit "4")
  ; (lit "voodoo_glide", lit "emu")
  ; (lit "voodoo_lfb", lit "full")
  ; (lit "voodoo_splash", lit "false")
  ; (lit "mixer_nosound", lit "false")
  ; (lit "mixer_sample accurate", lit "false")
  ; (lit "mixer_swapstereo", lit "false")
  ; (lit "mixer_rate", lit "44100")
  ; (lit "mixer_blocksize", lit "1024")
  ; (lit "mixer_prebuffer", lit "20")
  ; (lit "midi_mpu401", lit "intelligent")
  ; (lit "midi_mpubase", lit "330")
  ; (lit "midi_mididevice", lit "default")
  ; (lit "midi_midiconfig", lit "")
  ; (lit "midi_samplerate", lit "44100")
  ; (lit "midi_mpuirq", lit "-1")
  ; (lit "midi_mt32.romdir", lit "")
  ; (lit "midi_mt32.model", lit "auto")
  ; (lit "midi_fluid.driver", lit "default")
  ; (lit "midi_fluid.soundfont", lit "")
  ; (lit "sblaster_sbtype", lit "sb16")
  ; (lit "sblaster_sbbase", lit "220")
  ; (lit "sblaster_irq", lit "7")
  ; (lit "sblaster_dma", lit "1")
  ; (lit "sblaster_hdma", lit "5")
  ; (lit "sblaster_enable speaker", lit "false")
  ; (lit "sblaster_sbmixer", lit "true")
  ; (lit "sblaster_oplmode", lit "auto")
  ; (lit "sblaster_oplemu", lit "default")
  ; (lit "sblaster_oplrate", lit "44100")
  ; (lit "sblaster_oplport", lit "")
  ; (lit "sblaster_retrowave_bus", lit "serial")
  ; (lit "sblaster_retrowave_port", lit "")
  ; (lit "sblaster_hardwarebase", lit "220")
  ; (lit "sblaster_goldplay", lit "false")
  ; (lit "sblaster_blaster environment variable", lit "true")
  ; (lit "gus_gus", lit "true")
  ; (lit "gus_gusrate", lit "44100")
  ; (lit "gus_gusmemsize", lit "-1")
  ; (lit "gus_gus master volume", lit "100")
  ; (lit "gus_gusbase", lit "240")
  ; (lit "gus_gusirq", lit "5")
  ; (lit "gus_gusdma", lit "3")
  ; (lit "gus_gustype", lit "classic")
  ; (lit "gus_ultradir", lit "C:\ULTRASND")
  ; (lit "innova_innova", lit "false")
  ; (lit "innova_samplerate", lit "22050")
  ; (lit "innova_sidbase", lit "280")
  ; (lit "innova_quality", lit "0")
  ; (lit "speaker_pcspeaker", lit "true")
  ; (lit "speaker_pcrate", lit "44100")
  ; (lit "speaker_tandy", lit "off")
  ; (lit "speaker_tandyrate", lit "44100")
  ; (lit "speaker_disney", lit "false")
  ; (lit "speaker_ps1audio", lit "false")
  ; (lit "speaker_ps1audiorate", lit "22050")
  ; (lit "joystick_joysticktype", lit "none")
  ; (lit "joystick_timed", lit "true")
  ; (lit "joystick_autofire", lit "false")
  ; (lit "joystick_swap34", lit "false")
  ; (lit "joystick_buttonwrap", lit "false")
  ; (lit "mapper_joy1deadzone0-", lit "0.60")
  ; (lit "mapper_joy1deadzone0+", lit "0.60")
  ; (lit "mapper_joy1deadzone1-", lit "0.60")
  ; (lit "mapper_joy1deadzone1+", lit "0.60")
  ; (lit "mapper_joy1deadzone2-", lit "0.60")
  ; (lit "mapper_joy1deadzone2+", lit "0.60")
  ; (lit "mapper_joy1deadzone3-", lit "0.60")
  ; (lit "mapper_joy1deadzone3+", lit "0.60")
  ; (lit "mapper_joy1deadzone4-", lit "0.60")
  ; (lit "mapper_joy1deadzone4+", lit "0.60")
  ; (lit "mapper_joy1deadzone5-", lit "0.60")
  ; (lit "mapper_joy1deadzone5+", lit "0.60")
  ; (lit "mapper_joy1deadzone6-", lit "0.60")
  ; (lit "mapper_joy1deadzone6+", lit "0.60")
  ; (lit "mapper_joy1deadzone7-", lit "0.60")
  ; (lit "mapper_joy1deadzone7+", lit "0.60")
  ; (lit "mapper_joy2deadzone0-", lit "0.60")
  ; (lit "mapper_joy2deadzone0+", lit "0.60")
  ; (lit "mapper_joy2deadzone1-", lit "0.60")
  ; (lit "mapper_joy2deadzone1+", lit "0.60")
  ; (lit "mapper_joy2deadzone2-", lit "0.60")
  ; (lit "mapper_joy2deadzone2+", lit "0.60")
  ; (lit "mapper_joy2deadzone3-", lit "0.60")
  ; (lit "mapper_joy2deadzone3+", lit "0.60")
  ; (lit "mapper_joy2deadzone4-", lit "0.60")
  ; (lit "mapper_joy2deadzone4+", lit "0.60")
  ; (lit "mapper_joy2deadzone5-", lit "0.60")
  ; (lit "mapper_joy2deadzone5+", lit "0.60")
  ; (lit "mapper_joy2deadzone6-", lit "0.60")
  ; (lit "mapper_joy2deadzone6+", lit "0.60")
  ; (lit "mapper_joy2deadzone7-", lit "0.60")
  ; (lit "mapper_joy2deadzone7+", lit "0.60")
  ; (lit "serial_serial1", lit "dummy")
  ; (lit "serial_serial2", lit "dummy")
  ; (lit "serial_serial3", lit "disabled")
  ; (lit "serial_serial4", lit "disabled")
  ; (lit "serial_serial5", lit "disabled")
  ; (lit "serial_serial6", lit "disabled")
  ; (lit "serial_serial7", lit "disabled")
  ; (lit "serial_serial8", lit "disabled")
  ; (lit "serial_serial9", lit "disabled")
  ; (lit "serial_phonebookfile", lit "phonebook.txt")
  ; (lit "parallel_parallel1", lit "disabled")
  ; (lit "parallel_parallel2", lit "disabled")
  ; (lit "parallel_parallel3", lit "disabled")
  ; (lit "parallel_parallel4", lit "disabled")
  ; (lit "parallel_parallel5", lit "disabled")
  ; (lit "parallel_parallel6", lit "disabled")
  ; (lit "parallel_parallel7", lit "disabled")
  ; (lit "parallel_parallel8", lit "disabled")
  ; (lit "parallel_parallel9", lit "disabled")
  ; (lit "parallel_dongle", lit "false")
  ; (lit "printer_printer", lit "false")
  ; (lit "printer_dpi", lit "360")
  ; (lit "printer_width", lit "85")
  ; (lit "printer_height", lit "110")
  ; (lit "printer_printoutput", lit "png")
  ; (lit "printer_multipage", lit "false")
  ; (lit "printer_device", lit "")
  ; (lit "printer_docpath", lit ".")
  ; (lit "printer_fontpath", lit "")
  ; (lit "printer_openwith", lit "")
  ; (lit "printer_openerror", lit "false")
  ; (lit "printer_printdbcs", lit "true")
  ; (lit "printer_shellhide", lit "true")
  ; (lit "printer_timeout", lit "0")
  ; (lit "dos_xms", lit "true")
  ; (lit "dos_xms handles", lit "0")
  ; (lit "dos_shell configuration as commands", lit "true")
  ; (lit "dos_hma", lit "true")
  ; (lit "dos_hard drive data rate limit", lit "-1")
  ; (lit "dos_floppy drive data rate limit", lit "0")
  ; (lit "dos_ansi.sys", lit "true")
  ; (lit "dos_log console", lit "false")
  ; (lit "dos_share", lit "true")
  ; (lit "dos_file access tries", lit "3")
  ; (lit "dos_network redirector", lit "true")
  ; (lit "dos_minimum mcb free", lit "0")
  ; (lit "dos_ems", lit "true")
  ; (lit "dos_umb", lit "true")
  ; (lit "dos_quick reboot", lit "false")
  ; (lit "dos_ver", lit "auto")
  ; (lit "dos_lfn", lit "auto")
  ; (lit "dos_fat32setversion", lit "ask")
  ; (lit "dos_shellhigh", lit "auto")
  ; (lit "dos_automount", lit "true")
  ; (lit "dos_automountall", lit "true")
  ; (lit "dos_mountwarning", lit "true")
  ; (lit "dos_autofixwarning", lit "false")
  ; (lit "dos_startcmd", lit "false")
  ; (lit "dos_starttranspath", lit "true")
  ; (lit "dos_startwait", lit "true")
  ; (lit "dos_startquiet", lit "false")
  ; (lit "dos_vmware", lit "true")
  ; (lit "dos_int33", lit "true")
  ; (lit "dos_keyboardlayout", lit "auto")
  ; (lit "dos_customcodepage", lit "")
  ; (lit "dos_dbcs", lit "true")
  ; (lit "dos_dos clipboard device enable", lit "false")
  ; (lit "dos_dos clipboard device name", lit "CLIP$")
  ; (lit "dos_dos clipboard api", lit "true")
  ; (lit "ipx_ipx", lit "false")
  ; (lit "ne2000_ne2000", lit "false")
  ; (lit "ne2000_nicbase", lit "300")
  ; (lit "ne2000_nicirq", lit "3")
  ; (lit "ne2000_macaddr", lit "AC:DE:48:88:99:AA")
  ; (lit "ne2000_backend", lit "auto")
  ; (lit "ethernet, pcap_realnic", lit "")
  ; (lit "ethernet, pcap_timeout", lit "0")
  ; (lit "ethernet, slirp_ipv4_network", lit "")
  ; (lit "ethernet, slirp_ipv4_netmask", lit "")
  ; (lit "ethernet, slirp_ipv4_host", lit "")
  ; (lit "ethernet, slirp_ipv4_nameserver", lit "")
  ; (lit "ethernet, slirp_ipv4_dhcp_start", lit "")
  ; (lit "ide, primary_enable", lit "true")
  ; (lit "ide, primary_pnp", lit "false")
  ; (lit "ide, secondary_enable", lit "true")
  ; (lit "ide, secondary_pnp", lit "false")
  ; (lit "ide, tertiary_enable", lit "false")
  ; (lit "ide, tertiary_pnp", lit "false")
  ; (lit "ide, quaternary_enable", lit "false")
  ; (lit "ide, quaternary_pnp", lit "false")
  ; (lit "ide, quinternary_enable", lit "false")
  ; (lit "ide, quinternary_pnp", lit "false")
  ; (lit "ide, sexternary_enable", lit "false")
  ; (lit "ide, sexternary_pnp", lit "false")
  ; (lit "ide, septernary_enable", lit "false")
  ; (lit "ide, septernary_pnp", lit "false")
  ; (lit "ide, octernary_enable", lit "false")
  ; (lit "ide, octernary_pnp", lit "false")
  ; (lit "fdc, primary_enable", lit "true")
  ; (lit "fdc, primary_pnp", lit "false")
  ; (lit "fdc, primary_mode", lit "ps2")
  ; (lit "4dos_rem", lit "")
  ; (lit "config_rem", lit "")
  ; (lit "config_break", lit "true")
  ; (lit "config_numlock", lit "")
  ; (lit "config_shell", lit "")
  ; (lit "config_dos", lit "high")
  ; (lit "config_fcbs", lit "100")
  ; (lit "config_files", lit "127")
  ; (lit "config_country", lit "")
  ; (lit "config_lastdrive", lit "z")
  ; (lit "config_install", lit "")
  ; (lit "config_installhigh", lit "")
  ; (lit "config_device", lit "")
  ; (lit "config_devicehigh", lit "") ].

(** Body of the loop of [parseEditConfFormat] for one line: the placeholder
    key and value it stores, if any. *)
Definition parseEditConfFormat_line (line : str) : option (str * str) :=
  let trimmed := trim line in
  if startsWith (lit "ver.") trimmed || str_eqb trimmed [] then None
  else
    let parts := split "|" trimmed in
    if (3 <=? Z.of_nat (length parts)) then
      let section := parseInt (nth 0 parts []) in
      let item := parseInt (nth 1 parts []) in
      let value := join (lit "|") (drop 2 parts) in
      match section, item with
      | Some section, Some item =>
          match OptionDat.getKeyForEditConfEntry section item with
          | Some (sectionName, keyName) =>
              Some (sectionName ++ lit "_" ++ keyName, value)
          | None => None
          end
      | _, _ => None
      end
    else None.

(** [parseEditConfFormat(content)]: a [Map], kept in insertion order. *)
Definition parseEditConfFormat (content : str) : obj str :=
  fold_left
    (fun values line =>
       match parseEditConfFormat_line line with
       | Some (k, v) => obj_set values k v
       | None => values
       end)
    (lines_of content) [].

(** [[^@]]. *)
Definition not_at (c : ascii) : bool := negb (ch_eqb c "@").

(** [/@([^@]+)@/] tried at the start of [s]: the captured token and the text
    after the closing [@]. *)
Definition match_token (s : str) : option (str * str) :=
  match s with
  | c :: r =>
      if ch_eqb c "@" then
        match takeWhile not_at r, dropWhile not_at r with
        | t :: tok, _ :: rest => Some (t :: tok, rest)
        | _, _ => None
        end
      else None
  | [] => None
  end.

(** [s.replace(/@([^@]+)@/g, (match, key) => f(key))]: one left-to-right
    pass; after a match the scan resumes behind the closing [@].  The fuel
    bounds the number of steps; [length s] is enough. *)
Fixpoint replace_tokens_fuel (fuel : nat) (f : str -> str) (s : str) : str :=
  match fuel with
  | O => s
  | S fuel' =>
      match match_token s with
      | Some (key, rest) => f key ++ replace_tokens_fuel fuel' f rest
      | None =>
          match s with
          | [] => []
          | c :: s' => c :: replace_tokens_fuel fuel' f s'
          end
      end
  end.

Definition replace_tokens (f : str -> str) (s : str) : str :=
  replace_tokens_fuel (length s) f s.

Section TemplateEngine.

(** The default table the engine reads; [defaults.ts] binds it to
    [WIN9X_DEFAULTS]. *)
Variable defaults : obj str.

(** [getDefaultValue(key)]: [defaults[key] ?? '']. *)
Definition getDefaultValue (key : str) : str :=
  match obj_get defaults key with
  | Some v => v
  | None => []
  end.

(** [mergedValues]: the defaults, overridden by the supplied values. *)
Definition mergedValues (values : obj str) : obj str :=
  fold_left (fun m kv => obj_set m (fst kv) (snd kv)) values
    (fold_left (fun m kv => obj_set m (fst kv) (snd kv)) defaults []).

(** The replacer callback of [applyValuesToTemplate].  Its
    [console.warn] for an unknown placeholder does not change the result
    and is left out. *)
Definition placeholder_value (values : obj str) (key : str) : str :=
  match obj_get (mergedValues values) key with
  | Some value => value
  | None =>
      let defaultValue := getDefaultValue key in
      if negb (str_eqb defaultValue []) then defaultValue else []
  end.

Definition applyValuesToTemplate (template : str) (values : obj str) : str :=
  replace_tokens (placeholder_value values) template.

End TemplateEngine.

(** A present, non-empty string: [if (s)]. *)
Definition present (s : option str) : option str :=
  if truthy s then s else None.

(** [extractWin9xDisplaySettings(values)]. *)
Definition extractWin9xDisplaySettings (values : obj str) : Win9xSettings :=
  let get := fun k => present (obj_get values (lit k)) in
  mkWin9x
    (match get "win9x_9xres" with
     | Some res => parse9xResolution res
     | None => default_resolution
     end)
    (match get "win9x_9xddraw" with
     | Some v => str_eqb v (lit "true")
     | None => true
     end)
    (match get "win9x_9xd3d" with
     | Some v => str_eqb v (lit "true")
     | None => true
     end)
    (match get "win9x_9x3dfx" with
     | Some v => str_eqb v (lit "true")
     | None => true
     end)
    (match get "win9x_9xmpu" with
     | Some v => if str_eqb v (lit "MPU401") then MPU401 else SBFM
     | None => SBFM
     end)
    (mkVol
       (match get "win9x_9xmaster" with
        | Some v => volume_of v 255
        | None => 255
        end)
       (match get "win9x_9xwave" with
        | Some v => volume_of v 255
        | None => 255
        end)
       (match get "win9x_9xmidi" with
        | Some v => volume_of v 255
        | None => 255
        end)
       (match get "win9x_9xcd" with
        | Some v => volume_of v 128
        | None => 128
        end)).

(* ================================================================== *)
(** * [mergeSettings] on references *)
(* ================================================================== *)

(** Objects live in a heap; a settings object holds, per section, a reference
    to that section's items object.  [mergeSettings] deep-copies [base]
    through JSON, then mutates the copy. *)
Module Store.

Abbreviation ref := nat.

Inductive cell : Type :=
| Settings (sections : obj ref)
| Items (items : obj str).

Abbreviation heap := (list cell).

(** A new object: the next free address. *)
Definition alloc (h : heap) (c : cell) : heap * ref := (h ++ [c], length h).

Definition get_items (h : heap) (r : ref) : option (obj str) :=
  match h !! r with
  | Some (Items kv) => Some kv
  | _ => None
  end.

Definition get_sections (h : heap) (r : ref) : option (obj ref) :=
  match h !! r with
  | Some (Settings secs) => Some secs
  | _ => None
  end.

(** The value a settings object denotes. *)
Fixpoint read_sections (h : heap) (secs : obj ref) : option DosboxSettings :=
  match secs with
  | [] => Some []
  | (name, r) :: rest =>
      kv ← get_items h r;
      v ← read_sections h rest;
      Some ((name, kv) :: v)
  end.

Definition read (h : heap) (r : ref) : option DosboxSettings :=
  secs ← get_sections h r; read_sections h secs.

(** [JSON.parse] building the copy: one new items object per section, then
    the new settings object. *)
Fixpoint copy_sections (h : heap) (v : DosboxSettings) : heap * obj ref :=
  match v with
  | [] => (h, [])
  | (name, kv) :: rest =>
      let '(h1, r) := alloc h (Items kv) in
      let '(h2, secs) := copy_sections h1 rest in
      (h2, (name, r) :: secs)
  end.

(** [JSON.parse(JSON.stringify(base))]. *)
Definition deep_copy (h : heap) (base : ref) : option (heap * ref) :=
  v ← read h base;
  let '(h1, secs) := copy_sections h v in
  Some (alloc h1 (Settings secs)).

(** [if (!merged[section]) merged[section] = {}]. *)
Definition ensure_section (h : heap) (merged : ref) (section : str)
    : option heap :=
  secs ← get_sections h merged;
  match obj_get secs section with
  | Some _ => Some h
  | None =>
      let '(h1, r) := alloc h (Items []) in
      Some (<[merged := Settings (obj_set secs section r)]> h1)
  end.

(** [merged[section][key] = value]; [None] is the TypeError of a missing
    section. *)
Definition set_item (h : heap) (merged : ref) (section key value : str)
    : option heap :=
  secs ← get_sections h merged;
  r ← obj_get secs section;
  kv ← get_items h r;
  Some (<[r := Items (obj_set kv key value)]> h).

(** The inner loop, over [Object.entries(items)]. *)
Fixpoint set_items (h : heap) (merged : ref) (section : str)
    (entries : list (str * str)) : option heap :=
  match entries with
  | [] => Some h
  | (key, value) :: rest =>
      h1 ← set_item h merged section key value;
      set_items h1 merged section rest
  end.

(** The outer loop, over [Object.entries(override)]. *)
Fixpoint merge_loop (h : heap) (merged : ref) (entries : list (str * ref))
    : option heap :=
  match entries with
  | [] => Some h
  | (section, items) :: rest =>
      h1 ← ensure_section h merged section;
      kvs ← get_items h1 items;
      h2 ← set_items h1 merged section kvs;
      merge_loop h2 merged rest
  end.

Definition mergeSettings (h : heap) (base override : ref)
    : option (heap * ref) :=
  '(h1, merged) ← deep_copy h base;
  entries ← get_sections h1 override;
  h2 ← merge_loop h1 merged entries;
  Some (h2, merged).

End Store.

(* ================================================================== *)
(** * Further functions of [dosbox-settings.ts] *)
(* ================================================================== *)

(** [getExecuterType(entries)]: the value of the first entry at (0, 0);
    [None] is [null]. *)
Fixpoint getExecuterType (entries : list EditConfEntry) : option str :=
  match entries with
  | [] => None
  | entry :: rest =>
      if (section entry =? 0) && (item entry =? 0) then Some (value entry)
      else getExecuterType rest
  end.


(* ================================================================== *)
(** * The DOS game configuration ([tistory.ts]) *)
(* ================================================================== *)




(* ================================================================== *)
(** * Overrides for the line template ([dosbox-template.ts]) *)
(* ================================================================== *)



(* ================================================================== *)
(** * Further functions of [option-dat.ts] and [template-loader.ts] *)
(* ================================================================== *)

(** [getPlaceholderKey(sectionName, keyName)]: the key [section_key] a
    template names a setting by. *)
Definition getPlaceholderKey (sectionName keyName : str) : str :=
  sectionName ++ lit "_" ++ keyName.



(** [for (const [key, value] of src) values.set(key, value)]. *)
Definition set_all (values src : obj str) : obj str :=
  fold_left (fun m kv => obj_set m (fst kv) (snd kv)) src values.

(** The [values] map [generateDosboxXConfig] and
    [getWin9xDisplaySettingsFromEditConf] both build: the values of the
    preset text, then those of the edit.conf text set over them.  [None] is
    an omitted argument; [if (content)] also skips the empty text. *)
Definition layeredValues (cfgFileContent editConfContent : option str)
    : obj str :=
  let values := [] in
  let values :=
    match cfgFileContent with
    | Some (c :: content) => set_all values (parseEditConfFormat (c :: content))
    | _ => values
    end in
  match editConfContent with
  | Some (c :: content) => set_all values (parseEditConfFormat (c :: content))
  | _ => values
  end.

Definition getWin9xDisplaySettingsFromEditConf
    (cfgFileContent editConfContent : option str) : Win9xSettings :=
  extractWin9xDisplaySettings (layeredValues cfgFileContent editConfContent).

Section TemplatePipeline.

(** The default table of the engine, and the template chosen for an
    executer name ([None] is [null]). *)
Variable defaults : obj str.
Variable getTemplateForExecuter : str -> option str.


End TemplatePipeline.

(* ================================================================== *)
(** * Notions used to state the properties *)
(* ================================================================== *)

(** The (section name, key name) a pair of schema tables gives an address;
    [None]: the address is unknown to that schema. *)
Definition schema_key (sectionIndex : Table str)
    (sectionItems : Table (Table str)) (s i : Z) : option (str * str) :=
  match tbl_get sectionIndex s, tbl_get sectionItems s with
  | Some (c :: name), Some items =>
      match tbl_get items i with
      | Some (d :: key) => Some (c :: name, d :: key)
      | _ => None
      end
  | _, _ => None
  end.

(** The schema [convertEditConfToSettings] consults for a given [isLegacy]. *)
Definition active_key (R : Revision) (isLegacy : bool) (s i : Z)
    : option (str * str) :=
  if isLegacy
  then schema_key (SECTION_INDEX_LEGACY R) (SECTION_ITEMS_LEGACY R) s i
  else schema_key (SECTION_INDEX R) (SECTION_ITEMS R) s i.

(** The entries whose processing assigns [defaults.resolution]. *)
Definition sets_resolution (isLegacy : bool) (e : EditConfEntry) : bool :=
  (isLegacy && (section e =? 21) && (item e =? 1))
  || ((section e =? 1) && (item e =? 1)).

(** The entries whose processing assigns the volume of item slot [slot]
    (6 master, 7 wave, 8 midi, 9 cd). *)
Definition sets_volume (slot : Z) (e : EditConfEntry) : bool :=
  (section e =? 1) && (item e =? slot).

(** The volume of a slot, and its built-in default. *)
Definition volume_at (slot : Z) (w : Win9xSettings) : Z :=
  if slot =? 6 then master (volumes w)
  else if slot =? 7 then wave (volumes w)
  else if slot =? 8 then midi (volumes w)
  else cd (volumes w).

Definition volume_default (slot : Z) : Z := if slot =? 9 then 128 else 255.

(** The placeholder key of a volume slot in the values map of the template
    engine. *)
Definition volume_key (slot : Z) : str :=
  if slot =? 6 then lit "win9x_9xmaster"
  else if slot =? 7 then lit "win9x_9xwave"
  else if slot =? 8 then lit "win9x_9xmidi"
  else lit "win9x_9xcd".

(** Some digit is directly followed by [x] and another digit: the text
    contains a match of [/(\d+)x(\d+)/]. *)
Fixpoint has_resolution_pattern (s : str) : bool :=
  match s with
  | d1 :: t =>
      match t with
      | x :: d2 :: _ =>
          (is_digit d1 && ch_eqb x "x" && is_digit d2)
          || has_resolution_pattern t
      | _ => false
      end
  | [] => false
  end.


(** A version marker of the documented shape [ver.YY.MM.DD]. *)
Definition well_formed_marker (line : str) : bool :=
  match line with
  | [v; e; r; p; y1; y2; p1; m1; m2; p2; d1; d2] =>
      str_eqb [v; e; r; p] (lit "ver.")
      && ch_eqb p1 "." && ch_eqb p2 "."
      && forallb is_digit [y1; y2; m1; m2; d1; d2]
  | _ => false
  end.

(** A line that is not a version marker: trimmed, it does not start with
    [ver.]. *)
Definition not_marker (line : str) : bool :=
  negb (startsWith (lit "ver.") (trim line)).

(** The part carries no delimiter. *)
Definition no_bar (part : str) : bool :=
  forallb (fun c => negb (ch_eqb c "|")) part.

(** The keys of an object are pairwise distinct, as they are in every
    JavaScript object and [Map]. *)
Fixpoint unique_keys {V} (o : obj V) : bool :=
  match o with
  | [] => true
  | (k, _) :: o' =>
      match obj_get o' k with
      | None => unique_keys o'
      | Some _ => false
      end
  end.


(** The sections [settingsToConfString] emits a block for, in order. *)
Definition emitted_sections (R : Revision) (settings : DosboxSettings)
    : DosboxSettings :=
  List.filter (fun sec => negb (is_special R (fst sec))) settings.

(** The settings map of the pseudo-section example. *)
Definition example_settings : DosboxSettings :=
  [ (lit "default", [(lit "version", lit "x")]);
    (lit "dosbox", [(lit "memsize", lit "16")]) ].

(** Keys are distinct at both levels of a settings map. *)
Definition wf_settings (v : DosboxSettings) : bool :=
  unique_keys v && forallb (fun sec => unique_keys (snd sec)) v.







(** The settings map [{section: {key: value}}]. *)
Definition singleton_settings (s k v : str) : DosboxSettings := [(s, [(k, v)])].
(** The result of [f] at the last element of the list where it has one. *)
Fixpoint last_value {A B} (f : A -> option B) (l : list A) : option B :=
  match l with
  | [] => None
  | a :: rest =>
      match last_value f rest with
      | Some b => Some b
      | None => f a
      end
  end.

(** The pair is this section name and key name. *)
Definition key_is (p : option (str * str)) (s k : str) : bool :=
  match p with
  | Some (s', k') => str_eqb s' s && str_eqb k' k
  | None => false
  end.

(** The value an entry writes at [s.k] under the active schema, if it writes
    there. *)
Definition writes_at (R : Revision) (isLegacy : bool) (s k : str)
    (e : EditConfEntry) : option str :=
  if key_is (active_key R isLegacy (section e) (item e)) s k
  then Some (value e) else None.

(** All (section, item, section name, key name) rows of a pair of schema
    tables. *)
Definition schema_rows (sectionIndex : Table str)
    (sectionItems : Table (Table str)) : list (Z * Z * (str * str)) :=
  flat_map
    (fun si =>
       match tbl_get sectionIndex (fst si) with
       | Some name => map (fun ik => (fst si, fst ik, (name, snd ik))) (snd si)
       | None => []
       end)
    sectionItems.

(** The entry addresses (0, 0). *)
Definition is_executer_entry (e : EditConfEntry) : bool :=
  (section e =? 0) && (item e =? 0).

(** The section has at least one key. *)
Definition nonempty_items (items : obj str) : bool :=
  match items with [] => false | _ => true end.

Definition CR : ascii := ascii_of_nat 13.

(** The line carries no line feed. *)
Definition no_lf (line : str) : bool :=
  forallb (fun c => negb (ch_eqb c LF)) line.

(** The lines as a CRLF file has them after splitting at line feeds: all but
    the last end in a carriage return. *)
Fixpoint add_cr (ls : list str) : list str :=
  match ls with
  | [] => []
  | [l] => [l]
  | l :: rest => (l ++ [CR]) :: add_cr rest
  end.

(** The value of an optional text argument a function reads after its
    [if (content)] test: the parsed map, empty when the argument is omitted. *)
Definition values_of (content : option str) : obj str :=
  match content with
  | Some c => parseEditConfFormat c
  | None => []
  end.




(** The entries [extractWin9xSettings] acts on. *)
Definition win9x_relevant (isLegacy : bool) (e : EditConfEntry) : bool :=
  (isLegacy && (section e =? 21) && (item e =? 1))
  || ((section e =? 1) && (1 <=? item e) && (item e <=? 9)).

(** Every entry of a Win9x flag (section 1, item 2, 3 or 4: ddraw, d3d,
    3dfx) carries a non-empty value. *)
Definition win9x_flags_nonempty (entries : list EditConfEntry) : bool :=
  forallb
    (fun e =>
       negb ((section e =? 1) && (2 <=? item e) && (item e <=? 4))
       || truthy (Some (value e)))
    entries.

(** The placeholder keys [extractWin9xDisplaySettings] reads. *)
Definition win9x_keys : list str :=
  [ lit "win9x_9xres"; lit "win9x_9xddraw"; lit "win9x_9xd3d";
    lit "win9x_9x3dfx"; lit "win9x_9xmpu"; lit "win9x_9xmaster";
    lit "win9x_9xwave"; lit "win9x_9xmidi"; lit "win9x_9xcd" ].

(** The same key, or none on both sides. *)
Definition same_key (a b : option (str * str)) : bool :=
  match a, b with
  | Some (s, k), Some (s', k') => str_eqb s s' && str_eqb k k'
  | None, None => true
  | _, _ => false
  end.

(* ================================================================== *)
(** * Basic facts about strings, objects and tables *)
(* ================================================================== *)

Lemma ch_eqb_eq (a b : ascii) : ch_eqb a b = true <-> a = b.
Proof. unfold ch_eqb. apply Ascii.eqb_eq. Qed.

Lemma ch_eqb_refl (a : ascii) : ch_eqb a a = true.
Proof. apply ch_eqb_eq. reflexivity. Qed.

Lemma ch_eqb_neq (a b : ascii) : ch_eqb a b = false <-> a <> b.
Proof.
  rewrite <- ch_eqb_eq. destruct (ch_eqb a b); split; congruence.
Qed.

Lemma str_eqb_eq (a b : str) : str_eqb a b = true <-> a = b.
Proof.
  revert b. induction a as [|x a IH]; intros [|y b]; simpl; try easy.
  rewrite andb_true_iff, ch_eqb_eq, IH. split.
  - intros [-> ->]. reflexivity.
  - intros [= -> ->]. auto.
Qed.

Lemma str_eqb_refl (a : str) : str_eqb a a = true.
Proof. apply str_eqb_eq. reflexivity. Qed.

Lemma str_eqb_neq (a b : str) : str_eqb a b = false <-> a <> b.
Proof.
  rewrite <- str_eqb_eq. destruct (str_eqb a b); split; congruence.
Qed.

Lemma str_eqb_sym (a b : str) : str_eqb a b = str_eqb b a.
Proof.
  destruct (str_eqb a b) eqn:E.
  - apply str_eqb_eq in E. subst. symmetry. apply str_eqb_refl.
  - apply str_eqb_neq in E. symmetry. apply str_eqb_neq. congruence.
Qed.

Section ObjFacts.
Context {V : Type}.
Implicit Types (o : obj V) (k : str) (v : V).

Lemma obj_get_set_eq o k v : obj_get (obj_set o k v) k = Some v.
Proof.
  induction o as [|[k' v'] o IH]; simpl.
  - rewrite str_eqb_refl. reflexivity.
  - destruct (str_eqb k' k) eqn:E; simpl; rewrite E; auto.
Qed.

Lemma obj_get_set_ne o k k' v :
  k <> k' -> obj_get (obj_set o k v) k' = obj_get o k'.
Proof.
  intros Hne. induction o as [|[k0 v0] o IH]; simpl.
  - apply str_eqb_neq in Hne. rewrite Hne. reflexivity.
  - destruct (str_eqb k0 k) eqn:E; simpl.
    + apply str_eqb_eq in E. subst k0.
      apply str_eqb_neq in Hne. rewrite Hne. reflexivity.
    + destruct (str_eqb k0 k'); auto.
Qed.

Lemma obj_get_set o k k' v :
  obj_get (obj_set o k v) k' = if str_eqb k k' then Some v else obj_get o k'.
Proof.
  destruct (str_eqb k k') eqn:E.
  - apply str_eqb_eq in E. subst. apply obj_get_set_eq.
  - apply str_eqb_neq in E. apply obj_get_set_ne. assumption.
Qed.

End ObjFacts.

Lemma obj_get2_set o s items s' k :
  obj_get2 (V:=str) (obj_set o s items) s' k
  = if str_eqb s s' then obj_get items k else obj_get2 o s' k.
Proof.
  unfold obj_get2. rewrite obj_get_set. destruct (str_eqb s s'); reflexivity.
Qed.

Lemma fold_left_app_cons {A B} (f : A -> B -> A) (l1 l2 : list B) (x : B) (a : A) :
  fold_left f (l1 ++ x :: l2) a = fold_left f l2 (f (fold_left f l1 a) x).
Proof. rewrite fold_left_app. reflexivity. Qed.

(* ================================================================== *)
(** * Settings resolver *)
(* ================================================================== *)

Section Resolver.
Variables (sectionIndex : Table str) (sectionItems : Table (Table str)).
Implicit Types (st : DosboxSettings) (e : EditConfEntry).

Lemma convert_entry_unknown st e :
  schema_key sectionIndex sectionItems (section e) (item e) = None ->
  convert_entry sectionIndex sectionItems st e = st.
Proof.
  unfold schema_key, convert_entry.
  destruct (tbl_get sectionIndex (section e)) as [[|c n]|]; try reflexivity;
    destruct (tbl_get sectionItems (section e)) as [items|]; try reflexivity.
  destruct (tbl_get items (item e)) as [[|d k]|]; simpl; try reflexivity.
  discriminate.
Qed.

Lemma convert_entry_known st e s k :
  schema_key sectionIndex sectionItems (section e) (item e) = Some (s, k) ->
  convert_entry sectionIndex sectionItems st e
  = obj_set st s
      (obj_set (match obj_get st s with Some items => items | None => [] end)
               k (value e)).
Proof.
  unfold schema_key, convert_entry.
  destruct (tbl_get sectionIndex (section e)) as [[|c n]|]; try discriminate;
    destruct (tbl_get sectionItems (section e)) as [items|]; try discriminate.
  destruct (tbl_get items (item e)) as [[|d k']|]; try discriminate.
  intros [= <- <-]. reflexivity.
Qed.

(** What one entry does to a lookup in the settings map. *)
Lemma convert_entry_get2 st e s k :
  obj_get2 (convert_entry sectionIndex sectionItems st e) s k
  = match schema_key sectionIndex sectionItems (section e) (item e) with
    | Some (s', k') =>
        if str_eqb s' s && str_eqb k' k then Some (value e)
        else obj_get2 st s k
    | None => obj_get2 st s k
    end.
Proof.
  destruct (schema_key _ _ _ _) as [[s' k']|] eqn:E.
  - rewrite (convert_entry_known _ _ _ _ E), obj_get2_set.
    destruct (str_eqb s' s) eqn:Es; simpl; [|reflexivity].
    apply str_eqb_eq in Es. subst s'. rewrite obj_get_set.
    destruct (str_eqb k' k); [reflexivity|].
    unfold obj_get2. destruct (obj_get st s); reflexivity.
  - rewrite convert_entry_unknown by assumption. reflexivity.
Qed.

(** An entry with an unknown address can be deleted from the list. *)
Lemma convert_skip_unknown pre e post st :
  schema_key sectionIndex sectionItems (section e) (item e) = None ->
  fold_left (convert_entry sectionIndex sectionItems) (pre ++ e :: post) st
  = fold_left (convert_entry sectionIndex sectionItems) (pre ++ post) st.
Proof.
  intros H. rewrite fold_left_app_cons, fold_left_app.
  rewrite convert_entry_unknown by assumption. reflexivity.
Qed.

(** Every key of the result was written by an entry with a known address. *)
Lemma convert_provenance entries st s k v :
  obj_get2 (fold_left (convert_entry sectionIndex sectionItems) entries st) s k
    = Some v ->
  obj_get2 st s k = Some v
  \/ exists e, In e entries
       /\ schema_key sectionIndex sectionItems (section e) (item e) = Some (s, k)
       /\ value e = v.
Proof.
  revert st. induction entries as [|e entries IH]; intros st; simpl.
  - auto.
  - intros H. apply IH in H. destruct H as [H|(e' & Hin & Hk & Hv)].
    + rewrite convert_entry_get2 in H.
      destruct (schema_key _ _ _ _) as [[s' k']|] eqn:E; auto.
      destruct (str_eqb s' s) eqn:Es; simpl in H; auto.
      destruct (str_eqb k' k) eqn:Ek; simpl in H; auto.
      apply str_eqb_eq in Es, Ek. subst. injection H as H.
      right. exists e. auto.
    + right. exists e'. auto.
Qed.

(** No section of the result is empty of provenance either: a section exists
    only if some entry with a known address named it. *)
Lemma convert_section_provenance entries st s :
  obj_get (fold_left (convert_entry sectionIndex sectionItems) entries st) s
    <> None ->
  obj_get st s <> None
  \/ exists e k, In e entries
       /\ schema_key sectionIndex sectionItems (section e) (item e) = Some (s, k).
Proof.
  revert st. induction entries as [|e entries IH]; intros st; simpl.
  - auto.
  - intros H. apply IH in H. destruct H as [H|(e' & k & Hin & Hk)].
    + destruct (schema_key sectionIndex sectionItems (section e) (item e))
        as [[s' k']|] eqn:E.
      * rewrite (convert_entry_known _ _ _ _ E), obj_get_set in H.
        destruct (str_eqb s' s) eqn:Es; auto.
        apply str_eqb_eq in Es. subst. right. exists e, k'. auto.
      * rewrite convert_entry_unknown in H by assumption. auto.
    + right. exists e', k. auto.
Qed.

End Resolver.

Lemma convertEditConfToSettings_fold R entries isLegacy :
  convertEditConfToSettings R entries isLegacy
  = if isLegacy
    then fold_left (convert_entry (SECTION_INDEX_LEGACY R) (SECTION_ITEMS_LEGACY R))
           entries []
    else fold_left (convert_entry (SECTION_INDEX R) (SECTION_ITEMS R)) entries [].
Proof. destruct isLegacy; reflexivity. Qed.

Lemma convert_skip R isLegacy pre e post :
  active_key R isLegacy (section e) (item e) = None ->
  convertEditConfToSettings R (pre ++ e :: post) isLegacy
  = convertEditConfToSettings R (pre ++ post) isLegacy.
Proof.
  rewrite !convertEditConfToSettings_fold. unfold active_key.
  destruct isLegacy; apply convert_skip_unknown.
Qed.

Lemma convert_keys_known R isLegacy entries s k v :
  obj_get2 (convertEditConfToSettings R entries isLegacy) s k = Some v ->
  exists e, In e entries
    /\ active_key R isLegacy (section e) (item e) = Some (s, k)
    /\ value e = v.
Proof.
  rewrite convertEditConfToSettings_fold. unfold active_key.
  destruct isLegacy; intros H; apply convert_provenance in H;
    destruct H as [H|H]; auto; discriminate.
Qed.

(** The getter of [option-dat.ts] is the current-schema lookup. *)
Lemma getKeyForEditConfEntry_schema_key s i :
  OptionDat.getKeyForEditConfEntry s i
  = schema_key OptionDat.SECTION_NAMES OptionDat.SECTION_ITEMS s i.
Proof.
  unfold OptionDat.getKeyForEditConfEntry, schema_key.
  generalize (tbl_get OptionDat.SECTION_NAMES s) as name.
  generalize (tbl_get OptionDat.SECTION_ITEMS s) as items.
  intros [items|] [[|c n]|]; cbn [truthy negb]; try reflexivity.
  destruct (tbl_get items i) as [[|d k]|]; reflexivity.
Qed.

(** C1, as stated, fails: under the legacy schema the entry
    7|3|256 does not resolve to [{dosbox: {memsize: "256"}}]. *)
Lemma C1_legacy_7_3_counterexample :
  convertEditConfToSettings services [mkEntry 7 3 (lit "256")] true
  <> singleton_settings (lit "dosbox") (lit "memsize") (lit "256").
Proof. vm_compute. discriminate. Qed.

(** C1, amended: under the legacy schema section 7 is unknown, so the single
    entry (7, 3, v) resolves to the empty settings map; the legacy address of
    [dosbox.memsize] is (3, 3), and (7, 3) is its address under the current
    schema.  This holds for the tables of both revisions. *)
Theorem C1_legacy_memsize_address :
  forall v : str,
    convertEditConfToSettings services [mkEntry 7 3 v] true = []
    /\ convertEditConfToSettings services [mkEntry 3 3 v] true
       = singleton_settings (lit "dosbox") (lit "memsize") v
    /\ convertEditConfToSettings services [mkEntry 7 3 v] false
       = singleton_settings (lit "dosbox") (lit "memsize") v
    /\ convertEditConfToSettings mapper [mkEntry 7 3 v] true = []
    /\ convertEditConfToSettings mapper [mkEntry 3 3 v] true
       = singleton_settings (lit "dosbox") (lit "memsize") v
    /\ convertEditConfToSettings mapper [mkEntry 7 3 v] false
       = singleton_settings (lit "dosbox") (lit "memsize") v.
Proof. intros v. repeat split; reflexivity. Qed.

(** C8: an entry whose (section, item) address is unknown to the active
    schema is skipped: deleting it from the entry list does not change the
    resolved settings map, alone it resolves to the empty map, and every key
    of the result stems from another entry, one whose address is known.
    Resolution is a total function, so nothing is raised.  The address
    (99, 99) is unknown to both schemas of both revisions and to
    [getKeyForEditConfEntry]. *)
Theorem C8_unknown_address_skipped
    (R : Revision) (isLegacy : bool) (pre post : list EditConfEntry)
    (e : EditConfEntry) :
  active_key R isLegacy (section e) (item e) = None ->
  convertEditConfToSettings R (pre ++ e :: post) isLegacy
    = convertEditConfToSettings R (pre ++ post) isLegacy
  /\ convertEditConfToSettings R [e] isLegacy = []
  /\ (forall s k v,
        obj_get2 (convertEditConfToSettings R (pre ++ e :: post) isLegacy) s k
          = Some v ->
        exists e', In e' (pre ++ post)
          /\ active_key R isLegacy (section e') (item e') = Some (s, k)
          /\ value e' = v)
  /\ (forall legacy, active_key services legacy 99 99 = None
                     /\ active_key mapper legacy 99 99 = None)
  /\ OptionDat.getKeyForEditConfEntry 99 99 = None
  /\ parseEditConfFormat (lit "99|99|anything") = [].
Proof.
  intros H. repeat split.
  - apply convert_skip. assumption.
  - apply (convert_skip R isLegacy [] e []). assumption.
  - intros s k v Hget. rewrite convert_skip in Hget by assumption.
    apply convert_keys_known in Hget. assumption.
  - destruct legacy; reflexivity.
  - destruct legacy; vm_compute; reflexivity.
Qed.

Lemma C8_unknown_address_skipped_witness :
  active_key services true 99 99 = None
  /\ convertEditConfToSettings services
       ([mkEntry 3 3 (lit "256")] ++ mkEntry 99 99 (lit "anything") :: []) true
     = convertEditConfToSettings services ([mkEntry 3 3 (lit "256")] ++ []) true.
Proof.
  split; [reflexivity|].
  apply (C8_unknown_address_skipped services true [mkEntry 3 3 (lit "256")] []
           (mkEntry 99 99 (lit "anything"))).
  reflexivity.
Defined.

(* ================================================================== *)
(** * Win9x extension resolver *)
(* ================================================================== *)

Ltac case_eqb :=
  repeat match goal with
         | |- context [Z.eqb ?a ?b] =>
             destruct (Z.eqb_spec a b); try lia
         end.

Lemma extract_entry_resolution isLegacy d e :
  resolution (extract_entry isLegacy d e)
  = if sets_resolution isLegacy e then parse9xResolution (value e)
    else resolution d.
Proof.
  unfold extract_entry, sets_resolution.
  destruct isLegacy; cbn [andb orb negb]; case_eqb; reflexivity.
Qed.

Lemma extract_entry_volume slot isLegacy d e :
  6 <= slot <= 9 ->
  volume_at slot (extract_entry isLegacy d e)
  = if sets_volume slot e then volume_of (value e) (volume_default slot)
    else volume_at slot d.
Proof.
  intros Hslot.
  assert (slot = 6 \/ slot = 7 \/ slot = 8 \/ slot = 9) as Hs by lia.
  unfold extract_entry, sets_volume, volume_at, volume_default.
  destruct Hs as [->|[->|[->| ->]]];
    destruct isLegacy; cbn [andb orb negb]; case_eqb; reflexivity.
Qed.

(** A field that a step leaves alone keeps its value along the loop. *)
Lemma fold_left_field {S E F} (step : S -> E -> S) (proj : S -> F)
    (writes : E -> bool) (l : list E) (s : S) :
  (forall s e, writes e = false -> proj (step s e) = proj s) ->
  forallb (fun e => negb (writes e)) l = true ->
  proj (fold_left step l s) = proj s.
Proof.
  intros Hstep. revert s. induction l as [|e l IH]; intros s; simpl.
  - reflexivity.
  - rewrite andb_true_iff, negb_true_iff. intros [He Hl].
    rewrite IH by assumption. apply Hstep. assumption.
Qed.

(** The last entry that assigns the resolution decides it. *)
Lemma extract_last_resolution isLegacy pre e post :
  sets_resolution isLegacy e = true ->
  forallb (fun e' => negb (sets_resolution isLegacy e')) post = true ->
  resolution (extractWin9xSettings (pre ++ e :: post) isLegacy)
  = parse9xResolution (value e).
Proof.
  intros He Hpost. unfold extractWin9xSettings. rewrite fold_left_app_cons.
  rewrite (fold_left_field _ resolution (sets_resolution isLegacy)).
  - rewrite extract_entry_resolution, He. reflexivity.
  - intros s e' H. rewrite extract_entry_resolution, H. reflexivity.
  - assumption.
Qed.

(** The last entry that assigns a volume decides it. *)
Lemma extract_last_volume slot isLegacy pre e post :
  6 <= slot <= 9 ->
  sets_volume slot e = true ->
  forallb (fun e' => negb (sets_volume slot e')) post = true ->
  volume_at slot (extractWin9xSettings (pre ++ e :: post) isLegacy)
  = volume_of (value e) (volume_default slot).
Proof.
  intros Hslot He Hpost. unfold extractWin9xSettings. rewrite fold_left_app_cons.
  rewrite (fold_left_field _ (volume_at slot) (sets_volume slot)).
  - rewrite extract_entry_volume, He by assumption. reflexivity.
  - intros s e' H. rewrite extract_entry_volume, H by assumption. reflexivity.
  - assumption.
Qed.

Lemma num_or_nonzero x d : d <> 0 -> num_or x d <> 0.
Proof. destruct x as [[|p|p]|]; simpl; intros; try assumption; discriminate. Qed.

Lemma num_or_falsy x d : x = Some 0 \/ x = None -> num_or x d = d.
Proof. intros [-> | ->]; reflexivity. Qed.

Lemma volume_default_nonzero slot : volume_default slot <> 0.
Proof. unfold volume_default. destruct (slot =? 9); discriminate. Qed.

(** No volume is ever 0, whatever the entries. *)
Lemma extract_volume_nonzero slot isLegacy entries :
  6 <= slot <= 9 ->
  volume_at slot (extractWin9xSettings entries isLegacy) <> 0.
Proof.
  intros Hslot. unfold extractWin9xSettings.
  assert (volume_at slot win9x_defaults <> 0) as H0.
  { unfold volume_at. case_eqb; discriminate. }
  revert H0. generalize win9x_defaults as d.
  induction entries as [|e entries IH]; intros d Hd; simpl.
  - assumption.
  - apply IH. rewrite extract_entry_volume by assumption.
    destruct (sets_volume slot e); [|assumption].
    apply num_or_nonzero, volume_default_nonzero.
Qed.






Lemma dropWhile_head {A} (p : A -> bool) (l : list A) (x : A) (r : list A) :
  dropWhile p l = x :: r -> p x = false.
Proof.
  induction l as [|y l IH]; simpl; [discriminate|].
  destruct (p y) eqn:E; [assumption|]. intros [= -> _]. assumption.
Qed.




(** Conversely, a text that contains the pattern has a match. *)
Lemma match_resolution_complete (s : str) :
  has_resolution_pattern s = true -> match_resolution s <> None.
Proof.
  induction s as [|c t IH]; [discriminate|].
  cbn [has_resolution_pattern]. destruct t as [|x [|d2 r]]; try discriminate.
  rewrite orb_true_iff, !andb_true_iff, ch_eqb_eq. intros [[[Hc ->] Hd]|H].
  - cbn [match_resolution dropWhile]. rewrite Hc.
    change (is_digit "x") with false. cbv iota.
    rewrite Hd, ch_eqb_refl. discriminate.
  - specialize (IH H). cbn [match_resolution].
    destruct (is_digit c); [|exact IH].
    destruct (dropWhile is_digit (c :: x :: d2 :: r)) as [|x' [|b r']];
      try exact IH.
    destruct (ch_eqb x' "x" && is_digit b); [discriminate|exact IH].
Qed.



Lemma display_volume slot (values : obj str) :
  6 <= slot <= 9 ->
  volume_at slot (extractWin9xDisplaySettings values)
  = match present (obj_get values (volume_key slot)) with
    | Some v => volume_of v (volume_default slot)
    | None => volume_default slot
    end.
Proof.
  intros Hslot.
  assert (slot = 6 \/ slot = 7 \/ slot = 8 \/ slot = 9) as Hs by lia.
  destruct Hs as [->|[->|[->| ->]]]; reflexivity.
Qed.

Lemma display_volume_nonzero slot (values : obj str) :
  6 <= slot <= 9 -> volume_at slot (extractWin9xDisplaySettings values) <> 0.
Proof.
  intros Hslot. rewrite display_volume by assumption.
  destruct (present _).
  - apply num_or_nonzero, volume_default_nonzero.
  - apply volume_default_nonzero.
Qed.

(** In the earlier revision the legacy tables still map (21, 1): the
    resolution string lands in the [voodoo] section of the settings map. *)
Lemma services_legacy_21_1_mapped (v : str) :
  convertEditConfToSettings services [mkEntry 21 1 v] true
  = singleton_settings (lit "voodoo") (lit "9xres") v.
Proof. reflexivity. Qed.

(** C2: with [isLegacy = true], [extractWin9xSettings] assigns the resolution
    from an entry (21, 1, v) as [parse9xResolution v], without consulting any
    schema table: the last such entry (or win9x 9xres entry) decides the
    returned resolution, and with [isLegacy = false] the entry is ignored.
    The legacy tables of the later revision define nothing for section 21, so
    an entry (21, i, v) resolved under [isLegacy = true] leaves no key in the
    settings map. *)
Theorem C2_legacy_resolution_alias
    (pre post : list EditConfEntry) (d : Win9xSettings) (v : str) (i : Z) :
  forallb (fun e' => negb (sets_resolution true e')) post = true ->
  resolution (extractWin9xSettings (pre ++ mkEntry 21 1 v :: post) true)
    = parse9xResolution v
  /\ extract_entry true d (mkEntry 21 1 v)
     = set_resolution d (parse9xResolution v)
  /\ extractWin9xSettings (pre ++ mkEntry 21 1 v :: post) false
     = extractWin9xSettings (pre ++ post) false
  /\ tbl_get (SECTION_INDEX_LEGACY mapper) 21 = None
  /\ tbl_get (SECTION_ITEMS_LEGACY mapper) 21 = None
  /\ active_key mapper true 21 i = None
  /\ convertEditConfToSettings mapper (pre ++ mkEntry 21 i v :: post) true
     = convertEditConfToSettings mapper (pre ++ post) true
  /\ convertEditConfToSettings mapper [mkEntry 21 i v] true = [].
Proof.
  intros Hpost. repeat split.
  - apply extract_last_resolution; [reflexivity|assumption].
  - unfold extractWin9xSettings. rewrite fold_left_app_cons, fold_left_app.
    reflexivity.
  - apply convert_skip. reflexivity.
Qed.

Lemma C2_legacy_resolution_alias_witness :
  resolution
    (extractWin9xSettings
       ([mkEntry 1 1 (lit "640x8")] ++ mkEntry 21 1 (lit "800x16")
          :: [mkEntry 1 6 (lit "200")]) true)
  = parse9xResolution (lit "800x16").
Proof.
  apply (C2_legacy_resolution_alias [mkEntry 1 1 (lit "640x8")]
           [mkEntry 1 6 (lit "200")] win9x_defaults (lit "800x16") 1).
  reflexivity.
Defined.



(** C10, as stated, fails: an entry list that contains the
    win9x master-volume entry 1|6|0 and, after it, 1|6|100 yields master
    volume 100, not the built-in default 255. *)
Lemma C10_later_entry_counterexample :
  In (mkEntry 1 6 (lit "0")) [mkEntry 1 6 (lit "0"); mkEntry 1 6 (lit "100")]
  /\ parseInt (lit "0") = Some 0
  /\ master (volumes (extractWin9xSettings
                        [mkEntry 1 6 (lit "0"); mkEntry 1 6 (lit "100")] false))
     = 100
  /\ master (volumes (extractWin9xSettings
                        [mkEntry 1 6 (lit "0"); mkEntry 1 6 (lit "100")] false))
     <> 255.
Proof. repeat split; [left; reflexivity | vm_compute; discriminate]. Qed.

(** C10, amended: when the last entry of a win9x volume slot (section 1,
    item 6, 7, 8 or 9) has a value whose [parseInt] is 0 or NaN,
    [extractWin9xSettings] returns the built-in default of that slot (255 for
    master, wave and midi, 128 for cd); whatever the entries, no returned
    volume is 0.  The same holds for [extractWin9xDisplaySettings] and the
    value stored under the slot's key. *)
Theorem C10_zero_volume_not_expressible
    (slot : Z) (isLegacy : bool) (pre post entries : list EditConfEntry)
    (e : EditConfEntry) (values : obj str) :
  6 <= slot <= 9 ->
  section e = 1 -> item e = slot ->
  parseInt (value e) = Some 0 \/ parseInt (value e) = None ->
  forallb (fun e' => negb (sets_volume slot e')) post = true ->
  volume_at slot (extractWin9xSettings (pre ++ e :: post) isLegacy)
    = volume_default slot
  /\ volume_at slot (extractWin9xSettings entries isLegacy) <> 0
  /\ (obj_get values (volume_key slot) = Some (value e) ->
      volume_at slot (extractWin9xDisplaySettings values) = volume_default slot)
  /\ volume_at slot (extractWin9xDisplaySettings values) <> 0
  /\ volume_default 6 = 255 /\ volume_default 7 = 255
  /\ volume_default 8 = 255 /\ volume_default 9 = 128.
Proof.
  intros Hslot Hsec Hitem Hparse Hpost. repeat split.
  - rewrite extract_last_volume by
      (try assumption; unfold sets_volume; rewrite Hsec, Hitem, !Z.eqb_refl;
       reflexivity).
    apply num_or_falsy. assumption.
  - apply extract_volume_nonzero. assumption.
  - intros Hget. rewrite display_volume, Hget by assumption.
    unfold present. destruct (truthy _); [apply num_or_falsy; assumption|].
    reflexivity.
  - apply display_volume_nonzero. assumption.
Qed.

Lemma C10_zero_volume_not_expressible_witness :
  volume_at 9
    (extractWin9xSettings
       ([mkEntry 1 9 (lit "77")] ++ mkEntry 1 9 (lit "0")
          :: [mkEntry 1 6 (lit "10")]) true)
  = 128.
Proof.
  apply (C10_zero_volume_not_expressible 9 true [mkEntry 1 9 (lit "77")]
           [mkEntry 1 6 (lit "10")] [] (mkEntry 1 9 (lit "0")) []).
  - lia.
  - reflexivity.
  - reflexivity.
  - left. reflexivity.
  - reflexivity.
Defined.

(* ================================================================== *)
(** * Entry parser *)
(* ================================================================== *)

Lemma split_nonempty sep s : split sep s <> [].
Proof.
  destruct s as [|c s]; simpl; [discriminate|].
  destruct (ch_eqb c sep); [discriminate|].
  destruct (split sep s); discriminate.
Qed.

(** Splitting and rejoining with the same delimiter gives the text back. *)
Lemma join_split sep s : join [sep] (split sep s) = s.
Proof.
  induction s as [|c s IH]; [reflexivity|].
  simpl. pose proof (split_nonempty sep s) as Hne.
  destruct (ch_eqb c sep) eqn:E.
  - apply ch_eqb_eq in E. subst c.
    destruct (split sep s) as [|p ps]; [congruence|].
    rewrite <- IH. reflexivity.
  - destruct (split sep s) as [|p ps]; [congruence|].
    destruct ps as [|q ps]; rewrite <- IH; reflexivity.
Qed.

(** A delimiter-free prefix followed by the delimiter is the first part. *)
Lemma split_app_sep sep a rest :
  forallb (fun c => negb (ch_eqb c sep)) a = true ->
  split sep (a ++ sep :: rest) = a :: split sep rest.
Proof.
  induction a as [|c a IH]; simpl.
  - rewrite ch_eqb_refl. reflexivity.
  - rewrite andb_true_iff, negb_true_iff. intros [-> Ha].
    rewrite IH by assumption. reflexivity.
Qed.

Lemma split_length_ge_1 sep s : (1 <= length (split sep s))%nat.
Proof.
  pose proof (split_nonempty sep s). destruct (split sep s); simpl; [congruence|lia].
Qed.

(** The first part of a text that starts with [ver.] is not a number. *)
Lemma parseInt_first_part_of_marker s :
  startsWith (lit "ver.") s = true ->
  parseInt (nth 0 (split "|" s) []) = None.
Proof.
  destruct s as [|c s]; [discriminate|].
  cbn [lit list_ascii_of_string startsWith]. rewrite andb_true_iff, ch_eqb_eq.
  intros [<- _]. cbn [split]. change (ch_eqb "v" "|") with false. cbv iota.
  destruct (split "|" s); reflexivity.
Qed.

(** When a line is accepted, and with what entry. *)
Lemma parseEditConf_line_spec line e :
  parseEditConf_line line = Some e
  <-> (3 <= length (split "|" (trim line)))%nat
      /\ parseInt (nth 0 (split "|" (trim line)) []) = Some (section e)
      /\ parseInt (nth 1 (split "|" (trim line)) []) = Some (item e)
      /\ value e = join (lit "|") (drop 2 (split "|" (trim line))).
Proof.
  unfold parseEditConf_line.
  set (trimmed := trim line). set (parts := split "|" trimmed).
  destruct (startsWith (lit "ver.") trimmed) eqn:Ever.
  - cbn [orb]. apply parseInt_first_part_of_marker in Ever. fold parts in Ever.
    rewrite Ever. split; [discriminate|]. intros (_ & H & _). discriminate.
  - cbn [orb]. destruct (str_eqb trimmed []) eqn:Eempty.
    + apply str_eqb_eq in Eempty. subst parts. rewrite Eempty.
      split; [discriminate|]. cbn. intros (H & _). lia.
    + destruct (Z.leb_spec 3 (Z.of_nat (length parts))) as [Hlen|Hlen].
      * destruct (parseInt (nth 0 parts [])) as [n|];
          [|split; [discriminate|intros (_ & H & _); discriminate]].
        destruct (parseInt (nth 1 parts [])) as [m|];
          [|split; [discriminate|intros (_ & _ & H & _); discriminate]].
        split.
        -- intros [= <-]. cbn. repeat split. lia.
        -- intros (_ & [= H1] & [= H2] & H3). destruct e as [s i v].
           cbn in *. subst. reflexivity.
      * split; [discriminate|]. intros (H & _). lia.
Qed.

(** The parser keeps exactly the accepted lines, in order. *)
Lemma parseEditConf_lines content :
  parseEditConf content = omap parseEditConf_line (lines_of content).
Proof. reflexivity. Qed.

(** C3, as stated, fails: the line -1|2|x is accepted, with
    section -1, although its first part is not a non-negative integer. *)
Lemma C3_negative_index_counterexample :
  parseEditConf (lit "-1|2|x") = [mkEntry (-1) 2 (lit "x")]
  /\ parseInt (lit "-1") = Some (-1)
  /\ -1 < 0.
Proof. repeat split. Qed.

(** C3, amended: a line is accepted as an entry if and only if its trimmed
    text, split on the delimiter, has at least 3 parts and [parseInt] gives a
    number for each of the first two; [parseInt] allows leading white space
    and a sign and ignores what follows the digits, so the number may be
    negative.  The entry's value is all parts from the third on, rejoined
    with the delimiter: for a line [a|b|v] without surrounding white space
    it is [v], the whole text after the second delimiter. *)
Theorem C3_line_acceptance (line a b v : str) (e : EditConfEntry) (n m : Z) :
  no_bar a = true -> no_bar b = true ->
  trim (a ++ lit "|" ++ b ++ lit "|" ++ v) = a ++ lit "|" ++ b ++ lit "|" ++ v ->
  parseInt a = Some n -> parseInt b = Some m ->
  (parseEditConf_line line = Some e
   <-> (3 <= length (split "|" (trim line)))%nat
       /\ parseInt (nth 0 (split "|" (trim line)) []) = Some (section e)
       /\ parseInt (nth 1 (split "|" (trim line)) []) = Some (item e)
       /\ value e = join (lit "|") (drop 2 (split "|" (trim line))))
  /\ parseEditConf_line (a ++ lit "|" ++ b ++ lit "|" ++ v)
     = Some (mkEntry n m v)
  /\ join (lit "|") (split "|" v) = v.
Proof.
  intros Ha Hb Htrim Hn Hm. split; [apply parseEditConf_line_spec|].
  assert (join (lit "|") (split "|" v) = v) as Hjoin by apply join_split.
  split; [|exact Hjoin].
  apply parseEditConf_line_spec. rewrite Htrim.
  change (a ++ lit "|" ++ b ++ lit "|" ++ v)
    with (a ++ "|"%char :: (b ++ "|"%char :: v)).
  unfold no_bar in Ha, Hb. rewrite !split_app_sep by assumption.
  cbn [nth drop section item value length].
  pose proof (split_length_ge_1 "|" v). repeat split; try assumption.
  - lia.
  - symmetry. exact Hjoin.
Qed.

Lemma C3_line_acceptance_witness :
  parseEditConf_line (lit "7" ++ lit "|" ++ lit "3" ++ lit "|" ++ lit "a|b")
  = Some (mkEntry 7 3 (lit "a|b")).
Proof.
  apply (C3_line_acceptance [] (lit "7") (lit "3") (lit "a|b")
           (mkEntry 0 0 []) 7 3); reflexivity.
Defined.

(* ================================================================== *)
(** * Version marker *)
(* ================================================================== *)

Lemma version_of_lines_skip pre rest :
  forallb not_marker pre = true ->
  version_of_lines (pre ++ rest) = version_of_lines rest.
Proof.
  induction pre as [|l pre IH]; [reflexivity|].
  cbn [app version_of_lines forallb]. rewrite andb_true_iff.
  unfold not_marker at 1. rewrite negb_true_iff.
  intros [-> H]. apply IH. assumption.
Qed.

Lemma isLegacyVersion_spec version :
  isLegacyVersion version = true <-> version < 220000.
Proof. unfold isLegacyVersion. apply Z.ltb_lt. Qed.

(** What a decimal digit is not. *)
Lemma digit_facts c :
  is_digit c = true ->
  is_ws c = false /\ ch_eqb c "." = false /\ ch_eqb c "-" = false
  /\ ch_eqb c "+" = false /\ ch_eqb c LF = false /\ ch_eqb c "|" = false.
Proof.
  destruct c as [[] [] [] [] [] [] [] []]; vm_compute; intros H;
    try discriminate H; repeat split.
Qed.

(** A marker of the documented shape parses to its six digits, YYMMDD. *)
Lemma well_formed_marker_version (line : str) :
  well_formed_marker line = true ->
  parseEditConfVersion line = decimal (removeAll "." (drop 4 line))
  /\ 0 <= parseEditConfVersion line < 1000000.
Proof.
  unfold well_formed_marker.
  destruct line as [|v [|e [|r [|p [|y1 [|y2 [|p1 [|m1 [|m2 [|p2 [|d1 [|d2 [|]]]]]]]]]]]]];
    try discriminate.
  rewrite !andb_true_iff, str_eqb_eq, !ch_eqb_eq. cbn [forallb].
  rewrite !andb_true_iff.
  intros ((([= -> -> -> ->] & ->) & ->) & H1 & H2 & H3 & H4 & H5 & H6 & _).
  destruct (digit_facts _ H1) as (W1 & P1 & N1 & Q1 & L1 & _).
  destruct (digit_facts _ H2) as (W2 & P2 & N2 & Q2 & L2 & _).
  destruct (digit_facts _ H3) as (W3 & P3 & N3 & Q3 & L3 & _).
  destruct (digit_facts _ H4) as (W4 & P4 & N4 & Q4 & L4 & _).
  destruct (digit_facts _ H5) as (W5 & P5 & N5 & Q5 & L5 & _).
  destruct (digit_facts _ H6) as (W6 & P6 & N6 & Q6 & L6 & _).
  assert (parseEditConfVersion
            ["v"; "e"; "r"; "."; y1; y2; "."; m1; m2; "."; d1; d2]%char
          = decimal [y1; y2; m1; m2; d1; d2]) as E.
  { unfold parseEditConfVersion, lines_of.
    cbn [split]. rewrite L1, L2, L3, L4, L5, L6.
    change (ch_eqb "v" LF) with false. change (ch_eqb "e" LF) with false.
    change (ch_eqb "r" LF) with false. change (ch_eqb "." LF) with false.
    cbv iota. cbn [version_of_lines].
    unfold trim, trimStart, trimEnd. cbn [dropWhile]. change (is_ws "v") with false.
    cbv iota. cbn [rev app dropWhile]. rewrite W6. cbn [rev app].
    cbn [lit list_ascii_of_string startsWith]. rewrite !ch_eqb_refl. cbn [andb].
    cbn [drop removeAll List.filter]. rewrite P1, P2, P3, P4, P5, P6.
    rewrite ch_eqb_refl. cbn [negb].
    unfold parseInt, trimStart. cbn [dropWhile]. rewrite W1, N1, Q1.
    cbn [takeWhile]. rewrite H1, H2, H3, H4, H5, H6.
    rewrite Z.mul_1_l. reflexivity. }
  split.
  - rewrite E. cbn [drop removeAll List.filter].
    rewrite P1, P2, P3, P4, P5, P6, ch_eqb_refl. reflexivity.
  - rewrite E. unfold decimal, digit_val. cbn [fold_left].
    unfold is_digit in *. rewrite !andb_true_iff, !Z.leb_le in *. lia.
Qed.

(** C4, as stated, fails: the marker ver.2022.01.01 is not of
    the shape ver.YY.MM.DD, yet it parses to 20220101, not 0, and is
    classified current. *)
Lemma C4_malformed_marker_counterexample :
  well_formed_marker (lit "ver.2022.01.01") = false
  /\ parseEditConfVersion (lit "ver.2022.01.01") = 20220101
  /\ isLegacyVersion (parseEditConfVersion (lit "ver.2022.01.01")) = false.
Proof. repeat split. Qed.

(** C4, amended: "ver.21.12.31" parses to 211231, legacy; "ver.22.00.00"
    parses to 220000, current; a version is legacy exactly when it is below
    220000.  The first marker line decides: its text after [ver.], dots
    removed, goes through [parseInt], so the version is the integer that text
    starts with; when it starts with none, the version is 0 and the file is
    legacy.  Parsing is total: nothing is raised. *)
Theorem C4_version_classification
    (content : str) (pre post : list str) (line : str) :
  lines_of content = pre ++ line :: post ->
  forallb not_marker pre = true ->
  startsWith (lit "ver.") (trim line) = true ->
  parseEditConfVersion (lit "ver.21.12.31") = 211231
  /\ isLegacyVersion 211231 = true
  /\ parseEditConfVersion (lit "ver.22.00.00") = 220000
  /\ isLegacyVersion 220000 = false
  /\ (forall version, isLegacyVersion version = true <-> version < 220000)
  /\ parseEditConfVersion content
     = match parseInt (removeAll "." (drop 4 (trim line))) with
       | Some v => v
       | None => 0
       end
  /\ (parseInt (removeAll "." (drop 4 (trim line))) = None ->
      parseEditConfVersion content = 0
      /\ isLegacyVersion (parseEditConfVersion content) = true).
Proof.
  intros Hlines Hpre Hver.
  assert (parseEditConfVersion content
          = match parseInt (removeAll "." (drop 4 (trim line))) with
            | Some v => v
            | None => 0
            end) as Hv.
  { unfold parseEditConfVersion.
    rewrite Hlines, version_of_lines_skip by assumption.
    cbn [version_of_lines]. rewrite Hver. reflexivity. }
  repeat split; try reflexivity; try apply isLegacyVersion_spec; try assumption.
  - rewrite Hv, H. reflexivity.
  - rewrite Hv, H. reflexivity.
Qed.

Lemma C4_version_classification_witness :
  parseEditConfVersion (lit "7|3|256" ++ [LF] ++ lit " ver.x.y" ++ [LF]) = 0.
Proof.
  apply (C4_version_classification
           (lit "7|3|256" ++ [LF] ++ lit " ver.x.y" ++ [LF])
           [lit "7|3|256"] [ [] ] (lit " ver.x.y")); reflexivity.
Defined.

(** Without any marker line the version is 0. *)
Lemma parseEditConfVersion_no_marker content :
  forallb not_marker (lines_of content) = true ->
  parseEditConfVersion content = 0.
Proof.
  intros H. unfold parseEditConfVersion.
  rewrite <- (app_nil_r (lines_of content)).
  rewrite version_of_lines_skip by assumption. reflexivity.
Qed.

(* ================================================================== *)
(** * Template engine *)
(* ================================================================== *)







(** Writing the entries of an object with distinct keys over [m]: the
    object's value wins, else what [m] had. *)
Lemma obj_get_fold_set (o m : obj str) k :
  unique_keys o = true ->
  obj_get (fold_left (fun m kv => obj_set m (fst kv) (snd kv)) o m) k
  = match obj_get o k with
    | Some v => Some v
    | None => obj_get m k
    end.
Proof.
  revert m. induction o as [|[k0 v0] o IH]; intros m; [reflexivity|].
  cbn [unique_keys fold_left obj_get fst snd].
  destruct (obj_get o k0) eqn:E0; [discriminate|]. intros Hu.
  rewrite IH by assumption. rewrite obj_get_set.
  destruct (str_eqb k0 k) eqn:E.
  - apply str_eqb_eq in E. subst k0. rewrite E0. reflexivity.
  - reflexivity.
Qed.


Lemma WIN9X_DEFAULTS_unique_keys : unique_keys WIN9X_DEFAULTS = true.
Proof. vm_compute. reflexivity. Qed.

(** With the table of [defaults.ts] itself the default of [cpu_core] is
    [dynamic]. *)
Lemma applyValuesToTemplate_WIN9X_DEFAULTS :
  applyValuesToTemplate WIN9X_DEFAULTS
    (lit "memsize=@dosbox_memsize@" ++ [LF] ++ lit "core=@cpu_core@")
    [(lit "dosbox_memsize", lit "256")]
  = lit "memsize=256" ++ [LF] ++ lit "core=dynamic".
Proof. vm_compute. reflexivity. Qed.



(* ================================================================== *)
(** * Config document assembler *)
(* ================================================================== *)

Lemma dropWhile_app_keep {A} (p : A -> bool) (l1 l2 : list A) :
  dropWhile p l1 <> [] -> dropWhile p (l1 ++ l2) = dropWhile p l1 ++ l2.
Proof.
  induction l1 as [|x l1 IH]; cbn [dropWhile app]; [congruence|].
  destruct (p x); [exact IH|reflexivity].
Qed.

Lemma dropWhile_app_all {A} (p : A -> bool) (l1 l2 : list A) :
  dropWhile p l1 = [] -> dropWhile p (l1 ++ l2) = dropWhile p l2.
Proof.
  induction l1 as [|x l1 IH]; cbn [dropWhile app]; [reflexivity|].
  destruct (p x); [exact IH|discriminate].
Qed.


(** Stripping trailing white space only touches the end of the text. *)
Lemma trimEnd_app pre t :
  trimEnd t <> [] -> trimEnd (pre ++ t) = pre ++ trimEnd t.
Proof.
  unfold trimEnd. intros H. rewrite rev_app_distr.
  rewrite dropWhile_app_keep.
  - rewrite rev_app_distr, rev_involutive. reflexivity.
  - intros E. rewrite E in H. apply H. reflexivity.
Qed.

Lemma trimEnd_app_ws t u :
  trimEnd u = [] -> trimEnd (t ++ u) = trimEnd t.
Proof.
  unfold trimEnd. intros H. rewrite rev_app_distr.
  assert (dropWhile is_ws (rev u) = []) as E.
  { destruct (dropWhile is_ws (rev u)) as [|x l] eqn:E; [reflexivity|].
    cbn [rev] in H. destruct (rev l); discriminate. }
  rewrite dropWhile_app_all by assumption. reflexivity.
Qed.

Lemma trimEnd_snoc t c : is_ws c = false -> trimEnd (t ++ [c]) = t ++ [c].
Proof.
  intros Hc. unfold trimEnd. rewrite rev_app_distr. cbn [rev app dropWhile].
  rewrite Hc. cbn [rev]. rewrite rev_involutive. reflexivity.
Qed.

(** The serialised sections are the blocks of the emitted sections. *)
Lemma conf_lines_emitted R settings :
  conf_lines R settings = flat_map section_lines (emitted_sections R settings).
Proof.
  unfold conf_lines, emitted_sections.
  induction settings as [|sec settings IH]; [reflexivity|].
  cbn [flat_map List.filter]. destruct (is_special R (fst sec)); cbn [negb].
  - exact IH.
  - cbn [flat_map]. rewrite IH. reflexivity.
Qed.





(** Trimming a text keeps a word that starts and ends with a character other
    than white space, together with everything before it that survives the
    leading trim; after it only trailing white space goes. *)
Lemma trimEnd_after_word w0 d u :
  is_ws d = false -> trimEnd ((w0 ++ [d]) ++ u) = (w0 ++ [d]) ++ trimEnd u.
Proof.
  intros Hd. destruct (trimEnd u) as [|x l] eqn:E.
  - rewrite trimEnd_app_ws by assumption. rewrite trimEnd_snoc by assumption.
    rewrite app_nil_r. reflexivity.
  - rewrite trimEnd_app by (rewrite E; discriminate). rewrite E. reflexivity.
Qed.








(* ================================================================== *)
(** * [mergeSettings]: values *)
(* ================================================================== *)

Lemma obj_set2_get s k x (o : DosboxSettings) :
  obj_get o s <> None -> obj_get (obj_set2 o s k x) s <> None.
Proof.
  unfold obj_set2. destruct (obj_get o s) eqn:E; [|congruence].
  intros _. rewrite obj_get_set_eq. discriminate.
Qed.

Lemma obj_set2_get2 s k x (o : DosboxSettings) s' k' :
  obj_get o s <> None ->
  obj_get2 (obj_set2 o s k x) s' k'
  = if str_eqb s s' && str_eqb k k' then Some x else obj_get2 o s' k'.
Proof.
  unfold obj_set2. destruct (obj_get o s) as [items|] eqn:E; [|congruence].
  intros _. rewrite obj_get2_set.
  destruct (str_eqb s s') eqn:Es; cbn [andb]; [|reflexivity].
  apply str_eqb_eq in Es. subst s'. rewrite obj_get_set.
  destruct (str_eqb k k'); [reflexivity|]. unfold obj_get2. rewrite E. reflexivity.
Qed.

Lemma obj_get2_cons {V} s (items : obj V) (o : obj (obj V)) s' k :
  obj_get2 ((s, items) :: o) s' k
  = if str_eqb s s' then obj_get items k else obj_get2 o s' k.
Proof. unfold obj_get2. cbn [obj_get]. destruct (str_eqb s s'); reflexivity. Qed.

(** The inner loop: the items of the override section win. *)
Lemma merge_items_get2 s (items : obj str) (m : DosboxSettings) s' k' :
  unique_keys items = true -> obj_get m s <> None ->
  obj_get2 (fold_left (fun m kv => obj_set2 m s (fst kv) (snd kv)) items m) s' k'
  = if str_eqb s s'
    then match obj_get items k' with
         | Some x => Some x
         | None => obj_get2 m s' k'
         end
    else obj_get2 m s' k'.
Proof.
  revert m. induction items as [|[k x] items IH]; intros m.
  - intros _ _. cbn. destruct (str_eqb s s'); reflexivity.
  - cbn [unique_keys fold_left obj_get fst snd].
    destruct (obj_get items k) eqn:Ek; [discriminate|]. intros Hu Hm.
    rewrite IH by (try assumption; apply obj_set2_get; assumption).
    rewrite obj_set2_get2 by assumption.
    destruct (str_eqb s s') eqn:Es; cbn [andb]; [|reflexivity].
    destruct (str_eqb k k') eqn:Ekk; [|reflexivity].
    apply str_eqb_eq in Ekk. subst k'. rewrite Ek. reflexivity.
Qed.

Lemma merge_section_get2 (m : DosboxSettings) s items s' k' :
  unique_keys items = true ->
  obj_get2 (merge_section m (s, items)) s' k'
  = if str_eqb s s'
    then match obj_get items k' with
         | Some x => Some x
         | None => obj_get2 m s' k'
         end
    else obj_get2 m s' k'.
Proof.
  intros Hu. unfold merge_section.
  destruct (obj_get m s) as [old|] eqn:E.
  - apply merge_items_get2; [assumption|congruence].
  - rewrite merge_items_get2;
      [|assumption|rewrite obj_get_set_eq; discriminate].
    rewrite obj_get2_set.
    destruct (str_eqb s s') eqn:Es; [|reflexivity].
    apply str_eqb_eq in Es. subst s'. unfold obj_get2. rewrite E. reflexivity.
Qed.

(** Key by key, the override wins and the rest of the base survives. *)
Lemma mergeSettings_get2 (base override : DosboxSettings) s k :
  wf_settings override = true ->
  obj_get2 (mergeSettings base override) s k
  = match obj_get2 override s k with
    | Some x => Some x
    | None => obj_get2 base s k
    end.
Proof.
  unfold mergeSettings, wf_settings. rewrite andb_true_iff. intros [Hu Hi].
  revert base. induction override as [|[sec items] override IH]; intros base.
  - reflexivity.
  - cbn [unique_keys forallb snd] in Hu, Hi.
    destruct (obj_get override sec) eqn:Esec; [discriminate|].
    apply andb_true_iff in Hi as [Hitems Hi].
    cbn [fold_left]. rewrite IH by assumption.
    rewrite merge_section_get2 by assumption.
    rewrite obj_get2_cons.
    destruct (str_eqb sec s) eqn:Es; [|reflexivity].
    apply str_eqb_eq in Es. subst s. unfold obj_get2 at 1. rewrite Esec.
    reflexivity.
Qed.

(* ================================================================== *)
(** * [mergeSettings]: references *)
(* ================================================================== *)

Section StoreFacts.
Import Store.
Local Open Scope nat_scope.
Implicit Types (h : heap) (r : ref) (v : DosboxSettings) (secs : obj ref).









End StoreFacts.

Section StoreSteps.
Import Store.
Local Open Scope nat_scope.
Implicit Types (h : heap) (r : ref) (v : DosboxSettings) (secs : obj ref).














End StoreSteps.




(* ================================================================== *)
(** * Last entry wins *)
(* ================================================================== *)

Lemma last_value_app {A B} (f : A -> option B) (l1 l2 : list A) :
  last_value f (l1 ++ l2)
  = match last_value f l2 with
    | Some b => Some b
    | None => last_value f l1
    end.
Proof.
  induction l1 as [|a l1 IH]; cbn [app last_value].
  - destruct (last_value f l2); reflexivity.
  - rewrite IH. destruct (last_value f l2); reflexivity.
Qed.

Lemma last_value_rev_first {A B} (f : A -> option B) (l : list A) :
  last_value f l
  = match List.find (fun a => match f a with Some _ => true | None => false end)
            (rev l) with
    | Some a => f a
    | None => None
    end.
Proof.
  induction l as [|a l IH]; [reflexivity|].
  cbn [last_value rev]. rewrite IH. clear IH.
  induction (rev l) as [|b r IHr]; cbn [app List.find].
  - destruct (f a) eqn:E; cbn; rewrite ?E; reflexivity.
  - destruct (f b) eqn:E; cbn; rewrite ?E; [reflexivity|exact IHr].
Qed.

(** A loop whose steps overwrite lookups: after the loop, a lookup gives what
    the last step that wrote there wrote, else what was there before. *)
Lemma fold_lookup_last {S E K V} (step : S -> E -> S)
    (look : S -> K -> option V) (hit : E -> K -> option V) :
  (forall st e k,
     look (step st e) k
     = match hit e k with Some v => Some v | None => look st k end) ->
  forall l st k,
    look (fold_left step l st) k
    = match last_value (fun e => hit e k) l with
      | Some v => Some v
      | None => look st k
      end.
Proof.
  intros Hstep l. induction l as [|e l IH]; intros st k; [reflexivity|].
  cbn [fold_left last_value]. rewrite IH, Hstep.
  destruct (last_value (fun e0 => hit e0 k) l); reflexivity.
Qed.

Lemma convert_fold_last idx its entries st s k :
  obj_get2 (fold_left (convert_entry idx its) entries st) s k
  = match last_value
            (fun e => if key_is (schema_key idx its (section e) (item e)) s k
                      then Some (value e) else None) entries with
    | Some v => Some v
    | None => obj_get2 st s k
    end.
Proof.
  assert (forall st' e (p : str * str),
             obj_get2 (convert_entry idx its st' e) (fst p) (snd p)
             = match (if key_is (schema_key idx its (section e) (item e))
                                (fst p) (snd p)
                      then Some (value e) else None) with
               | Some v => Some v
               | None => obj_get2 st' (fst p) (snd p)
               end) as Hstep.
  { intros st' e [s' k']. cbn [fst snd]. rewrite convert_entry_get2.
    unfold key_is.
    destruct (schema_key idx its (section e) (item e)) as [[a b]|];
      [|reflexivity].
    destruct (str_eqb a s' && str_eqb b k'); reflexivity. }
  exact (fold_lookup_last (convert_entry idx its)
           (fun st p => obj_get2 st (fst p) (snd p))
           (fun e p => if key_is (schema_key idx its (section e) (item e))
                                 (fst p) (snd p)
                       then Some (value e) else None)
           Hstep entries st (s, k)).
Qed.

Lemma convert_last R isLegacy entries s k :
  obj_get2 (convertEditConfToSettings R entries isLegacy) s k
  = last_value (writes_at R isLegacy s k) entries.
Proof.
  rewrite convertEditConfToSettings_fold. unfold writes_at, active_key.
  destruct isLegacy; rewrite convert_fold_last;
    match goal with |- context [last_value ?f entries] =>
      destruct (last_value f entries) end; reflexivity.
Qed.

(** X1: in the resolved settings map, a key holds the value of the last entry
    whose address the active schema maps to it, and is absent when there is
    no such entry. *)
Theorem X1_resolver_last_entry_wins
    (R : Revision) (isLegacy : bool) (entries : list EditConfEntry) (s k : str) :
  obj_get2 (convertEditConfToSettings R entries isLegacy) s k
  = last_value (writes_at R isLegacy s k) entries.
Proof. apply convert_last. Qed.

(* ================================================================== *)
(** * Well-formed settings maps *)
(* ================================================================== *)

Lemma unique_keys_set {V} (o : obj V) k v :
  unique_keys o = true -> unique_keys (obj_set o k v) = true.
Proof.
  induction o as [|[k' v'] o IH]; [reflexivity|].
  cbn [unique_keys obj_set].
  destruct (obj_get o k') eqn:E; [discriminate|]. intros Hu.
  destruct (str_eqb k' k) eqn:Ek; cbn [unique_keys].
  - rewrite E. assumption.
  - apply str_eqb_neq in Ek. rewrite obj_get_set_ne by congruence.
    rewrite E. apply IH. assumption.
Qed.

Lemma forallb_snd_set {V} (P : V -> bool) (o : obj V) k v :
  forallb (fun kv => P (snd kv)) o = true -> P v = true ->
  forallb (fun kv => P (snd kv)) (obj_set o k v) = true.
Proof.
  intros Ho Hv. induction o as [|[k' v'] o IH]; cbn [obj_set forallb snd].
  - rewrite Hv. reflexivity.
  - cbn [forallb snd] in Ho. apply andb_true_iff in Ho as [H1 H2].
    destruct (str_eqb k' k); cbn [forallb snd].
    + rewrite Hv, H2. reflexivity.
    + rewrite H1, IH by assumption. reflexivity.
Qed.

Lemma forallb_snd_get {V} (P : V -> bool) (o : obj V) k v :
  forallb (fun kv => P (snd kv)) o = true -> obj_get o k = Some v -> P v = true.
Proof.
  induction o as [|[k' v'] o IH]; [discriminate|].
  cbn [forallb snd obj_get]. rewrite andb_true_iff. intros [H1 H2].
  destruct (str_eqb k' k); [intros [= <-]; assumption|apply IH; assumption].
Qed.

Lemma obj_set_nonempty {V} (o : obj V) k v : obj_set o k v <> [].
Proof. destruct o as [|[k' v'] o]; cbn; [|destruct (str_eqb k' k)]; discriminate. Qed.

(** Writing one key keeps a settings map well formed. *)
Lemma wf_settings_write (o : DosboxSettings) s k v :
  wf_settings o = true ->
  wf_settings
    (obj_set o s
       (obj_set (match obj_get o s with Some items => items | None => [] end)
                k v)) = true.
Proof.
  unfold wf_settings. rewrite !andb_true_iff. intros [Hu Hi]. split.
  - apply unique_keys_set. assumption.
  - apply (forallb_snd_set unique_keys); [assumption|].
    apply unique_keys_set. destruct (obj_get o s) eqn:E; [|reflexivity].
    apply (forallb_snd_get unique_keys o s); assumption.
Qed.

Lemma convert_entry_wf idx its st e :
  wf_settings st = true -> wf_settings (convert_entry idx its st e) = true.
Proof.
  intros H. destruct (schema_key idx its (section e) (item e)) as [[s k]|] eqn:E.
  - rewrite (convert_entry_known _ _ _ _ _ _ E). apply wf_settings_write. assumption.
  - rewrite convert_entry_unknown by assumption. assumption.
Qed.

Lemma convert_entry_nonempty idx its st e :
  forallb (fun sec => nonempty_items (snd sec)) st = true ->
  forallb (fun sec => nonempty_items (snd sec)) (convert_entry idx its st e) = true.
Proof.
  intros H. destruct (schema_key idx its (section e) (item e)) as [[s k]|] eqn:E.
  - rewrite (convert_entry_known _ _ _ _ _ _ E).
    apply (forallb_snd_set nonempty_items); [assumption|].
    pose proof (obj_set_nonempty
                  (match obj_get st s with Some items => items | None => [] end)
                  k (value e)).
    destruct (obj_set _ k (value e)); [congruence|reflexivity].
  - rewrite convert_entry_unknown by assumption. assumption.
Qed.

Lemma fold_left_invariant {S E} (step : S -> E -> S) (P : S -> Prop) l :
  (forall st e, P st -> P (step st e)) -> forall st, P st -> P (fold_left step l st).
Proof.
  intros Hstep. induction l as [|e l IH]; intros st Hst; [assumption|].
  cbn. apply IH, Hstep, Hst.
Qed.

Lemma convert_wf R entries isLegacy :
  wf_settings (convertEditConfToSettings R entries isLegacy) = true.
Proof.
  rewrite convertEditConfToSettings_fold.
  destruct isLegacy;
    apply (fold_left_invariant _ (fun st => wf_settings st = true));
    try reflexivity; intros; apply convert_entry_wf; assumption.
Qed.

Lemma convert_nonempty R entries isLegacy :
  forallb (fun sec => nonempty_items (snd sec))
    (convertEditConfToSettings R entries isLegacy) = true.
Proof.
  rewrite convertEditConfToSettings_fold.
  destruct isLegacy;
    apply (fold_left_invariant _
             (fun st => forallb (fun sec => nonempty_items (snd sec)) st = true));
    try reflexivity; intros; apply convert_entry_nonempty; assumption.
Qed.

(** X2: the resolved settings map is well formed: no section name occurs
    twice, no key occurs twice in a section, and no section is empty. *)
Theorem X2_resolver_output_well_formed
    (R : Revision) (entries : list EditConfEntry) (isLegacy : bool) :
  wf_settings (convertEditConfToSettings R entries isLegacy) = true
  /\ forallb (fun sec => nonempty_items (snd sec))
       (convertEditConfToSettings R entries isLegacy) = true.
Proof. split; [apply convert_wf|apply convert_nonempty]. Qed.

(** X3: resolving two entry lists one after the other is, key by key, the
    merge of the two resolved maps: a preset followed by an override file
    resolves like the preset's settings with the file's settings merged
    over them. *)
Theorem X3_resolve_append_is_merge
    (R : Revision) (isLegacy : bool) (l1 l2 : list EditConfEntry) (s k : str) :
  obj_get2 (convertEditConfToSettings R (l1 ++ l2) isLegacy) s k
  = obj_get2 (mergeSettings (convertEditConfToSettings R l1 isLegacy)
                            (convertEditConfToSettings R l2 isLegacy)) s k.
Proof.
  rewrite mergeSettings_get2 by apply convert_wf.
  rewrite !convert_last, last_value_app. reflexivity.
Qed.

(* ================================================================== *)
(** * Algebra of [mergeSettings] *)
(* ================================================================== *)








Lemma unique_keys_app_tail {V} (o1 o2 : obj V) :
  unique_keys (o1 ++ o2) = true -> unique_keys o2 = true.
Proof.
  induction o1 as [|[k' v'] o1 IH]; cbn [app unique_keys]; [auto|].
  destruct (obj_get (o1 ++ o2) k'); [discriminate|exact IH].
Qed.




(* ================================================================== *)
(** * Entry parser: concatenation, white space, line ends *)
(* ================================================================== *)

Lemma split_app sep a b :
  split sep (a ++ sep :: b) = split sep a ++ split sep b.
Proof.
  induction a as [|c a IH]; cbn [app split].
  - rewrite ch_eqb_refl. reflexivity.
  - rewrite IH. destruct (ch_eqb c sep); [reflexivity|].
    pose proof (split_nonempty sep a) as Hne.
    destruct (split sep a) as [|p ps]; [congruence|reflexivity].
Qed.

(** Splitting a joined list of separator-free lines gives the lines back. *)
Lemma split_join sep (ls : list str) :
  ls <> [] ->
  forallb (forallb (fun c => negb (ch_eqb c sep))) ls = true ->
  split sep (join [sep] ls) = ls.
Proof.
  induction ls as [|l ls IH]; [congruence|]. intros _ Hall.
  cbn [forallb] in Hall. apply andb_true_iff in Hall as [Hl Hls].
  destruct ls as [|l2 ls].
  - cbn [join]. clear -Hl. induction l as [|c l IHl]; [reflexivity|].
    cbn [forallb] in Hl. apply andb_true_iff in Hl as [Hc Hl].
    apply negb_true_iff in Hc. cbn [split]. rewrite Hc, IHl by assumption.
    reflexivity.
  - change (join [sep] (l :: l2 :: ls)) with (l ++ sep :: join [sep] (l2 :: ls)).
    rewrite split_app_sep by assumption. rewrite IH by (discriminate || assumption).
    reflexivity.
Qed.

Lemma parseEditConf_app a b :
  parseEditConf (a ++ LF :: b) = parseEditConf a ++ parseEditConf b.
Proof.
  unfold parseEditConf, lines_of. rewrite split_app. apply omap_app.
Qed.

(** X6: parsing two texts joined by a line break gives the entries of the
    first followed by the entries of the second; resolved, the joined text
    gives, key by key, the merge of the second text's settings over the
    first's. *)
Theorem X6_parse_concatenation
    (R : Revision) (isLegacy : bool) (a b : str) (s k : str) :
  parseEditConf (a ++ LF :: b) = parseEditConf a ++ parseEditConf b
  /\ obj_get2 (convertEditConfToSettings R (parseEditConf (a ++ LF :: b)) isLegacy)
       s k
     = obj_get2
         (mergeSettings (convertEditConfToSettings R (parseEditConf a) isLegacy)
                        (convertEditConfToSettings R (parseEditConf b) isLegacy))
         s k.
Proof.
  split; [apply parseEditConf_app|].
  rewrite parseEditConf_app, mergeSettings_get2 by apply convert_wf.
  rewrite !convert_last, last_value_app. reflexivity.
Qed.

Lemma dropWhile_all {A} (p : A -> bool) (l : list A) :
  forallb p l = true -> dropWhile p l = [].
Proof.
  induction l as [|x l IH]; [reflexivity|]. cbn [forallb dropWhile].
  rewrite andb_true_iff. intros [-> H]. apply IH. assumption.
Qed.

Lemma forallb_rev_eq {A} (p : A -> bool) (l : list A) :
  forallb p (rev l) = forallb p l.
Proof.
  induction l as [|x l IH]; [reflexivity|].
  cbn [rev forallb]. rewrite forallb_app, IH. cbn [forallb].
  rewrite andb_true_r. apply andb_comm.
Qed.

Lemma trimStart_ws w s : forallb is_ws w = true -> trimStart (w ++ s) = trimStart s.
Proof.
  intros H. unfold trimStart. apply dropWhile_app_all, dropWhile_all. assumption.
Qed.

Lemma trimEnd_ws s w : forallb is_ws w = true -> trimEnd (s ++ w) = trimEnd s.
Proof.
  intros H. apply trimEnd_app_ws. unfold trimEnd.
  rewrite dropWhile_all; [reflexivity|]. rewrite forallb_rev_eq. assumption.
Qed.

(** White space around a text does not survive the trim. *)
Lemma trim_ws w1 s w2 :
  forallb is_ws w1 = true -> forallb is_ws w2 = true ->
  trim (w1 ++ s ++ w2) = trim s.
Proof.
  intros H1 H2. unfold trim. rewrite trimStart_ws by assumption.
  unfold trimStart.
  destruct (dropWhile is_ws s) as [|x r] eqn:E.
  - rewrite dropWhile_app_all by assumption.
    rewrite dropWhile_all by assumption. reflexivity.
  - rewrite dropWhile_app_keep by (rewrite E; discriminate). rewrite E.
    apply trimEnd_ws. assumption.
Qed.

Lemma parseEditConf_line_ws w1 line w2 :
  forallb is_ws w1 = true -> forallb is_ws w2 = true ->
  parseEditConf_line (w1 ++ line ++ w2) = parseEditConf_line line.
Proof.
  intros H1 H2. unfold parseEditConf_line. rewrite trim_ws by assumption.
  reflexivity.
Qed.

Lemma join_crlf (ls : list str) : join [CR; LF] ls = join [LF] (add_cr ls).
Proof.
  induction ls as [|l ls IH]; [reflexivity|].
  destruct ls as [|l2 ls]; [reflexivity|].
  change (join [CR; LF] (l :: l2 :: ls))
    with (l ++ [CR; LF] ++ join [CR; LF] (l2 :: ls)).
  rewrite IH.
  change (add_cr (l :: l2 :: ls)) with ((l ++ [CR]) :: add_cr (l2 :: ls)).
  destruct (add_cr (l2 :: ls)) as [|x r] eqn:E.
  - destruct ls; discriminate.
  - change (join [LF] ((l ++ [CR]) :: x :: r))
      with ((l ++ [CR]) ++ [LF] ++ join [LF] (x :: r)).
    rewrite <- app_assoc. reflexivity.
Qed.

Lemma add_cr_no_lf (ls : list str) :
  forallb no_lf ls = true -> forallb no_lf (add_cr ls) = true.
Proof.
  induction ls as [|l ls IH]; [reflexivity|].
  cbn [forallb]. rewrite andb_true_iff. intros [Hl Hls].
  destruct ls as [|l2 ls].
  - cbn [add_cr forallb]. rewrite Hl. reflexivity.
  - change (add_cr (l :: l2 :: ls)) with ((l ++ [CR]) :: add_cr (l2 :: ls)).
    cbn [forallb]. rewrite andb_true_iff. split; [|apply IH; assumption].
    unfold no_lf. rewrite forallb_app. unfold no_lf in Hl. rewrite Hl. reflexivity.
Qed.

Lemma omap_add_cr (ls : list str) :
  omap parseEditConf_line (add_cr ls) = omap parseEditConf_line ls.
Proof.
  induction ls as [|l ls IH]; [reflexivity|].
  destruct ls as [|l2 ls]; [reflexivity|].
  change (add_cr (l :: l2 :: ls)) with ((l ++ [CR]) :: add_cr (l2 :: ls)).
  pose proof (parseEditConf_line_ws [] l [CR] eq_refl eq_refl) as Hl.
  cbn [app] in Hl. cbn [omap list_omap]. rewrite IH, Hl. reflexivity.
Qed.

(** X7: white space around a line, and so the carriage returns of a file with
    CRLF line ends, does not change what is parsed: a line with white space
    around it gives the entry of the bare line, and the lines of a text give
    the same entries whether they are joined by CRLF or by LF. *)
Theorem X7_parse_line_ends (w1 line w2 : str) (ls : list str) :
  forallb is_ws w1 = true -> forallb is_ws w2 = true ->
  forallb no_lf ls = true ->
  parseEditConf_line (w1 ++ line ++ w2) = parseEditConf_line line
  /\ parseEditConf (join [CR; LF] ls) = parseEditConf (join [LF] ls)
  /\ parseEditConf (join [LF] ls) = omap parseEditConf_line ls.
Proof.
  intros H1 H2 Hls. split; [apply parseEditConf_line_ws; assumption|].
  destruct ls as [|l ls]; [split; reflexivity|].
  assert (parseEditConf (join [LF] (l :: ls)) = omap parseEditConf_line (l :: ls))
    as Hlf.
  { unfold parseEditConf, lines_of.
    rewrite split_join by (discriminate || exact Hls). reflexivity. }
  split; [|exact Hlf]. rewrite Hlf, join_crlf.
  unfold parseEditConf, lines_of. rewrite split_join.
  - apply omap_add_cr.
  - destruct ls; discriminate.
  - apply (add_cr_no_lf (l :: ls)). assumption.
Qed.

Lemma X7_parse_line_ends_witness :
  parseEditConf (join [CR; LF] [lit "ver.23.01.10"; lit "7|3|256"; lit "8|0|auto"])
  = parseEditConf (join [LF] [lit "ver.23.01.10"; lit "7|3|256"; lit "8|0|auto"]).
Proof.
  apply (X7_parse_line_ends [CR] (lit "7|3|256") [CR]
           [lit "ver.23.01.10"; lit "7|3|256"; lit "8|0|auto"]); reflexivity.
Defined.

(* ================================================================== *)
(** * The executer entry *)
(* ================================================================== *)

Lemma tbl_get_In {V} (t : Table V) n v : tbl_get t n = Some v -> In (n, v) t.
Proof.
  induction t as [|[n' v'] t IH]; cbn [tbl_get]; [discriminate|].
  destruct (Z.eqb_spec n' n) as [->|_].
  - intros [= ->]. left. reflexivity.
  - intros H. right. apply IH. assumption.
Qed.

(** Every address a schema knows is one of its rows. *)
Lemma schema_key_rows idx its s i p :
  schema_key idx its s i = Some p -> In (s, i, p) (schema_rows idx its).
Proof.
  unfold schema_key, schema_rows.
  destruct (tbl_get idx s) as [[|c name]|] eqn:En; try discriminate.
  destruct (tbl_get its s) as [items|] eqn:Ei; try discriminate.
  destruct (tbl_get items i) as [[|d key]|] eqn:Ek; try discriminate.
  intros [= <-]. apply in_flat_map. exists (s, items).
  split; [apply tbl_get_In; assumption|].
  cbn [fst snd]. rewrite En. apply in_map_iff. exists (i, d :: key).
  split; [reflexivity|apply tbl_get_In; assumption].
Qed.

(** A property checked on the rows of a schema holds of all its addresses. *)
Lemma schema_key_forall idx its (P : Z -> Z -> str * str -> bool) :
  forallb (fun r => P (fst (fst r)) (snd (fst r)) (snd r)) (schema_rows idx its)
  = true ->
  forall s i p, schema_key idx its s i = Some p -> P s i p = true.
Proof.
  intros Hall s i p Hk. rewrite forallb_forall in Hall.
  apply (Hall (s, i, p)). apply schema_key_rows. assumption.
Qed.

(** In a schema where (0, 0) is the only address of [default.version], the
    entries that write there are the entries at (0, 0). *)
Lemma key_is_default_version idx its :
  forallb (fun r => implb (key_is (Some (snd r)) (lit "default") (lit "version"))
                          ((fst (fst r) =? 0) && (snd (fst r) =? 0)))
          (schema_rows idx its) = true ->
  schema_key idx its 0 0 = Some (lit "default", lit "version") ->
  forall e,
    key_is (schema_key idx its (section e) (item e)) (lit "default") (lit "version")
    = is_executer_entry e.
Proof.
  intros Hall H00 e. unfold is_executer_entry.
  destruct (Z.eqb_spec (section e) 0) as [Hs|Hs];
    [destruct (Z.eqb_spec (item e) 0) as [Hi|Hi]|].
  - rewrite Hs, Hi, H00. reflexivity.
  - cbn [andb].
    destruct (schema_key idx its (section e) (item e)) as [p|] eqn:E;
      [|reflexivity].
    pose proof (schema_key_forall idx its
                  (fun s i p => implb (key_is (Some p) (lit "default") (lit "version"))
                                      ((s =? 0) && (i =? 0))) Hall _ _ _ E) as HP.
    cbn beta in HP. destruct (key_is (Some p) _ _); [|reflexivity].
    cbn [implb] in HP. apply andb_true_iff in HP as [_ HP].
    apply Z.eqb_eq in HP. contradiction.
  - cbn [andb].
    destruct (schema_key idx its (section e) (item e)) as [p|] eqn:E;
      [|reflexivity].
    pose proof (schema_key_forall idx its
                  (fun s i p => implb (key_is (Some p) (lit "default") (lit "version"))
                                      ((s =? 0) && (i =? 0))) Hall _ _ _ E) as HP.
    cbn beta in HP. destruct (key_is (Some p) _ _); [|reflexivity].
    cbn [implb] in HP. apply andb_true_iff in HP as [HP _].
    apply Z.eqb_eq in HP. contradiction.
Qed.

Lemma writes_at_default_version R isLegacy e :
  R = services \/ R = mapper ->
  writes_at R isLegacy (lit "default") (lit "version") e
  = if is_executer_entry e then Some (value e) else None.
Proof.
  intros HR. unfold writes_at, active_key.
  destruct HR as [-> | ->]; destruct isLegacy;
    rewrite key_is_default_version; try reflexivity; vm_compute; reflexivity.
Qed.

Lemma getExecuterType_app l1 l2 :
  getExecuterType (l1 ++ l2)
  = match getExecuterType l1 with
    | Some v => Some v
    | None => getExecuterType l2
    end.
Proof.
  induction l1 as [|e l1 IH]; [reflexivity|]. cbn [app getExecuterType].
  destruct ((section e =? 0) && (item e =? 0)); [reflexivity|exact IH].
Qed.

Lemma getExecuterType_rev entries :
  getExecuterType (rev entries)
  = last_value (fun e => if is_executer_entry e then Some (value e) else None)
      entries.
Proof.
  induction entries as [|e l IH]; [reflexivity|].
  cbn [rev last_value]. rewrite getExecuterType_app, IH.
  destruct (last_value _ l); [reflexivity|].
  cbn [getExecuterType]. unfold is_executer_entry.
  destruct ((section e =? 0) && (item e =? 0)); reflexivity.
Qed.

Lemma last_value_ext {A B} (f g : A -> option B) (l : list A) :
  (forall a, f a = g a) -> last_value f l = last_value g l.
Proof.
  intros H. induction l as [|a l IH]; [reflexivity|].
  cbn [last_value]. rewrite IH, H. reflexivity.
Qed.

Lemma getExecuterType_first entries :
  getExecuterType entries
  = head (map value (List.filter is_executer_entry entries)).
Proof.
  induction entries as [|e l IH]; [reflexivity|].
  cbn [getExecuterType List.filter]. unfold is_executer_entry at 1.
  destruct ((section e =? 0) && (item e =? 0)); [reflexivity|exact IH].
Qed.

(** X8: [getExecuterType] returns the value of the first entry at (0, 0), and
    null when there is none; the resolver, under either schema of either
    revision, stores under default.version the value of the last such entry,
    which is what [getExecuterType] finds in the reversed list. *)
Theorem X8_executer_first_resolver_last
    (entries : list EditConfEntry) (isLegacy : bool) :
  getExecuterType entries
    = head (map value (List.filter is_executer_entry entries))
  /\ obj_get2 (convertEditConfToSettings services entries isLegacy)
       (lit "default") (lit "version")
     = getExecuterType (rev entries)
  /\ obj_get2 (convertEditConfToSettings mapper entries isLegacy)
       (lit "default") (lit "version")
     = getExecuterType (rev entries).
Proof.
  split; [apply getExecuterType_first|].
  split; rewrite convert_last, getExecuterType_rev; apply last_value_ext;
    intros e; apply writes_at_default_version; [left|right]; reflexivity.
Qed.

Lemma startsWith_app p s : startsWith p (p ++ s) = true.
Proof.
  induction p as [|c p IH]; [reflexivity|].
  cbn [app startsWith]. rewrite ch_eqb_refl. exact IH.
Qed.




Lemma getExecuterType_In v entries :
  In (mkEntry 0 0 v) entries -> getExecuterType entries <> None.
Proof.
  induction entries as [|e l IH]; [intros []|].
  intros [->|H]; cbn [getExecuterType]; [discriminate|].
  destruct ((section e =? 0) && (item e =? 0)); [discriminate|apply IH; assumption].
Qed.




(* ================================================================== *)
(** * The two parsers of the edit.conf format *)
(* ================================================================== *)

(** The loop body of [parseEditConfFormat] is that of [parseEditConf]
    followed by the schema lookup. *)
Lemma parseEditConfFormat_line_entry line :
  parseEditConfFormat_line line
  = match parseEditConf_line line with
    | Some e =>
        match OptionDat.getKeyForEditConfEntry (section e) (item e) with
        | Some (s, k) => Some (getPlaceholderKey s k, value e)
        | None => None
        end
    | None => None
    end.
Proof.
  unfold parseEditConfFormat_line, parseEditConf_line.
  destruct (startsWith (lit "ver.") (trim line) || str_eqb (trim line) []);
    [reflexivity|].
  destruct (3 <=? Z.of_nat (length (split "|" (trim line)))); [|reflexivity].
  destruct (parseInt (nth 0 (split "|" (trim line)) [])); [|reflexivity].
  destruct (parseInt (nth 1 (split "|" (trim line)) [])); reflexivity.
Qed.

Lemma parseEditConfFormat_lines_last lines values key :
  obj_get
    (fold_left
       (fun values line =>
          match parseEditConfFormat_line line with
          | Some (k, v) => obj_set values k v
          | None => values
          end) lines values) key
  = match last_value
            (fun line =>
               match parseEditConfFormat_line line with
               | Some (k, v) => if str_eqb k key then Some v else None
               | None => None
               end) lines with
    | Some v => Some v
    | None => obj_get values key
    end.
Proof.
  apply (fold_lookup_last
           (fun values line =>
              match parseEditConfFormat_line line with
              | Some (k, v) => obj_set values k v
              | None => values
              end)
           (fun values key => obj_get values key)
           (fun line key =>
              match parseEditConfFormat_line line with
              | Some (k, v) => if str_eqb k key then Some v else None
              | None => None
              end)).
  intros st line k. destruct (parseEditConfFormat_line line) as [[k' v]|];
    [|reflexivity].
  rewrite obj_get_set. destruct (str_eqb k' k); reflexivity.
Qed.

Lemma parseEditConfFormat_last content key :
  obj_get (parseEditConfFormat content) key
  = last_value
      (fun line =>
         match parseEditConfFormat_line line with
         | Some (k, v) => if str_eqb k key then Some v else None
         | None => None
         end) (lines_of content).
Proof.
  unfold parseEditConfFormat. rewrite parseEditConfFormat_lines_last.
  destruct (last_value _ (lines_of content)); reflexivity.
Qed.

Lemma last_value_omap {A B C} (g : A -> option B) (f : B -> option C)
    (l : list A) :
  last_value f (omap g l)
  = last_value (fun a => match g a with Some b => f b | None => None end) l.
Proof.
  induction l as [|a l IH]; [reflexivity|].
  cbn [omap list_omap last_value]. rewrite <- IH.
  destruct (g a) as [b|]; [reflexivity|].
  destruct (last_value f (omap g l)); reflexivity.
Qed.

(** Distinct keys of the current schema have distinct placeholder keys. *)
Lemma getPlaceholderKey_injective s i p s' i' q :
  schema_key OptionDat.SECTION_NAMES OptionDat.SECTION_ITEMS s i = Some p ->
  schema_key OptionDat.SECTION_NAMES OptionDat.SECTION_ITEMS s' i' = Some q ->
  getPlaceholderKey (fst p) (snd p) = getPlaceholderKey (fst q) (snd q) -> p = q.
Proof.
  intros Hp Hq Heq.
  assert (forallb
            (fun r1 =>
               forallb
                 (fun r2 =>
                    implb (str_eqb (getPlaceholderKey (fst (snd r1)) (snd (snd r1)))
                                   (getPlaceholderKey (fst (snd r2)) (snd (snd r2))))
                          (key_is (Some (snd r1)) (fst (snd r2)) (snd (snd r2))))
                 (schema_rows OptionDat.SECTION_NAMES OptionDat.SECTION_ITEMS))
            (schema_rows OptionDat.SECTION_NAMES OptionDat.SECTION_ITEMS)
          = true) as Hall by (vm_compute; reflexivity).
  rewrite forallb_forall in Hall.
  specialize (Hall _ (schema_key_rows _ _ _ _ _ Hp)).
  rewrite forallb_forall in Hall.
  specialize (Hall _ (schema_key_rows _ _ _ _ _ Hq)).
  cbn [fst snd] in Hall. apply str_eqb_eq in Heq. rewrite Heq in Hall.
  cbn [implb] in Hall. destruct p as [a b], q as [c d].
  cbn [key_is fst snd] in Hall. apply andb_true_iff in Hall as [H1 H2].
  apply str_eqb_eq in H1, H2. subst. reflexivity.
Qed.

Lemma key_is_refl s k : key_is (Some (s, k)) s k = true.
Proof. cbn [key_is]. rewrite !str_eqb_refl. reflexivity. Qed.

Lemma key_is_eq p s k : key_is (Some p) s k = true -> p = (s, k).
Proof.
  destruct p as [a b]. cbn [key_is]. rewrite andb_true_iff.
  intros [H1 H2]. apply str_eqb_eq in H1, H2. subst. reflexivity.
Qed.

(** X10: the two parsers of the edit.conf format agree.  For every key the
    current schema knows, the values map of [parseEditConfFormat] holds under
    the placeholder key section_key exactly what the settings map resolved
    from [parseEditConf] under the current schema holds at section.key. *)
Theorem X10_parsers_agree (content : str) (a b : Z) (s k : str) :
  OptionDat.getKeyForEditConfEntry a b = Some (s, k) ->
  obj_get (parseEditConfFormat content) (getPlaceholderKey s k)
  = obj_get2 (convertEditConfToSettings mapper (parseEditConf content) false)
      s k.
Proof.
  intros Hsk. rewrite getKeyForEditConfEntry_schema_key in Hsk.
  rewrite parseEditConfFormat_last, convert_last.
  unfold parseEditConf. rewrite last_value_omap.
  apply last_value_ext. intros line.
  rewrite parseEditConfFormat_line_entry.
  destruct (parseEditConf_line line) as [e|]; [|reflexivity].
  unfold writes_at, active_key.
  change (schema_key (SECTION_INDEX mapper) (SECTION_ITEMS mapper))
    with (schema_key OptionDat.SECTION_NAMES OptionDat.SECTION_ITEMS).
  rewrite getKeyForEditConfEntry_schema_key.
  destruct (schema_key OptionDat.SECTION_NAMES OptionDat.SECTION_ITEMS
              (section e) (item e)) as [[s' k']|] eqn:E; [|reflexivity].
  destruct (key_is (Some (s', k')) s k) eqn:Ek.
  - apply key_is_eq in Ek. injection Ek as -> ->.
    rewrite str_eqb_refl. reflexivity.
  - destruct (str_eqb (getPlaceholderKey s' k') (getPlaceholderKey s k)) eqn:Ef;
      [|reflexivity].
    apply str_eqb_eq in Ef.
    pose proof (getPlaceholderKey_injective _ _ (s', k') _ _ (s, k) E Hsk Ef) as Hpq.
    injection Hpq as -> ->. rewrite key_is_refl in Ek. discriminate.
Qed.

Lemma X10_parsers_agree_witness :
  obj_get (parseEditConfFormat (lit "7|3|16" ++ [LF] ++ lit "7|3|256"))
          (lit "dosbox_memsize")
  = obj_get2
      (convertEditConfToSettings mapper
         (parseEditConf (lit "7|3|16" ++ [LF] ++ lit "7|3|256")) false)
      (lit "dosbox") (lit "memsize").
Proof.
  apply (X10_parsers_agree (lit "7|3|16" ++ [LF] ++ lit "7|3|256") 7 3
           (lit "dosbox") (lit "memsize")).
  reflexivity.
Defined.

(* ================================================================== *)
(** * Layers of values *)
(* ================================================================== *)

Lemma parseEditConfFormat_unique_keys content :
  unique_keys (parseEditConfFormat content) = true.
Proof.
  unfold parseEditConfFormat.
  apply (fold_left_invariant _ (fun st => unique_keys st = true));
    [|reflexivity].
  intros st line Hst. destruct (parseEditConfFormat_line line) as [[k v]|];
    [apply unique_keys_set|]; assumption.
Qed.

Lemma set_all_get values src key :
  unique_keys src = true ->
  obj_get (set_all values src) key
  = match obj_get src key with
    | Some v => Some v
    | None => obj_get values key
    end.
Proof. intros H. unfold set_all. apply obj_get_fold_set. assumption. Qed.



Lemma values_of_empty : values_of (Some []) = [].
Proof. reflexivity. Qed.

Lemma layeredValues_get cfg edit key :
  obj_get (layeredValues cfg edit) key
  = match obj_get (values_of edit) key with
    | Some v => Some v
    | None => obj_get (values_of cfg) key
    end.
Proof.
  unfold layeredValues.
  destruct edit as [[|c e]|]; destruct cfg as [[|d f]|];
    rewrite ?values_of_empty; cbn [values_of obj_get];
    rewrite ?set_all_get by apply parseEditConfFormat_unique_keys;
    cbn [obj_get]; try reflexivity;
    match goal with |- context [obj_get ?o key] =>
      destruct (obj_get o key); reflexivity end.
Qed.


Lemma lines_of_app a b : lines_of (a ++ LF :: b) = lines_of a ++ lines_of b.
Proof. apply split_app. Qed.



(* ================================================================== *)
(** * The two extractions of the Win9x settings *)
(* ================================================================== *)

Lemma extract_entry_irrelevant isLegacy d e :
  win9x_relevant isLegacy e = false -> extract_entry isLegacy d e = d.
Proof.
  unfold win9x_relevant, extract_entry. intros H.
  apply orb_false_iff in H as [H1 H2]. rewrite H1.
  destruct (section e =? 1); cbn [negb andb] in *; [|reflexivity].
  repeat match goal with
         | |- context [item e =? ?j] =>
             let Hj := fresh "Hj" in
             destruct (Z.eqb_spec (item e) j) as [Hj|Hj];
               [rewrite Hj in H2; discriminate|]
         end.
  reflexivity.
Qed.

Lemma extract_filter isLegacy entries w :
  fold_left (extract_entry isLegacy)
    (List.filter (win9x_relevant isLegacy) entries) w
  = fold_left (extract_entry isLegacy) entries w.
Proof.
  revert w. induction entries as [|e l IH]; intros w; [reflexivity|].
  cbn [List.filter fold_left].
  destruct (win9x_relevant isLegacy e) eqn:E; cbn [fold_left].
  - apply IH.
  - rewrite (extract_entry_irrelevant _ _ _ E). apply IH.
Qed.

Lemma win9x_relevant_current_not_legacy_alias e :
  section e = 21 -> win9x_relevant false e = false.
Proof. intros H. unfold win9x_relevant. rewrite H. reflexivity. Qed.

(** X12: [extractWin9xSettings] acts only on the entries of section 1, items
    1 to 9, and, under the legacy schema, on (21, 1): removing every other
    entry from the list does not change its result, and under the current
    schema an entry of section 21 is never read. *)
Theorem X12_win9x_irrelevant_entries
    (entries : list EditConfEntry) (isLegacy : bool) :
  extractWin9xSettings (List.filter (win9x_relevant isLegacy) entries) isLegacy
    = extractWin9xSettings entries isLegacy
  /\ (forall i v l1 l2,
        extractWin9xSettings (l1 ++ mkEntry 21 i v :: l2) false
        = extractWin9xSettings (l1 ++ l2) false).
Proof.
  split; [apply extract_filter|].
  intros i v l1 l2. unfold extractWin9xSettings.
  rewrite !fold_left_app. cbn [fold_left].
  rewrite extract_entry_irrelevant
    by (apply win9x_relevant_current_not_legacy_alias; reflexivity).
  reflexivity.
Qed.

(** [extractWin9xDisplaySettings] depends on the nine keys it reads only. *)
Lemma extractWin9xDisplaySettings_ext v1 v2 :
  (forall k, In k win9x_keys -> obj_get v1 k = obj_get v2 k) ->
  extractWin9xDisplaySettings v1 = extractWin9xDisplaySettings v2.
Proof.
  intros H. unfold extractWin9xDisplaySettings. cbv beta zeta.
  rewrite !H by (unfold win9x_keys; cbn [In]; auto 12).
  reflexivity.
Qed.

(** The current schema gives the nine keys to the addresses (1, 1) ... (1, 9)
    only. *)
Lemma win9x_keys_addresses s i p :
  schema_key OptionDat.SECTION_NAMES OptionDat.SECTION_ITEMS s i = Some p ->
  ((s =? 1) && (1 <=? i) && (i <=? 9) = false) ->
  forall k, In k win9x_keys -> getPlaceholderKey (fst p) (snd p) <> k.
Proof.
  intros Hp Hrel k Hk.
  pose proof (schema_key_forall OptionDat.SECTION_NAMES OptionDat.SECTION_ITEMS
                (fun s i p =>
                   ((s =? 1) && (1 <=? i) && (i <=? 9))
                   || negb (existsb (str_eqb (getPlaceholderKey (fst p) (snd p)))
                                    win9x_keys))) as Hall.
  cbn beta in Hall. specialize (Hall ltac:(vm_compute; reflexivity) _ _ _ Hp).
  rewrite Hrel in Hall. cbn [orb] in Hall. apply negb_true_iff in Hall.
  intros Heq. assert (existsb (str_eqb (getPlaceholderKey (fst p) (snd p))) win9x_keys
                      = true) as Hex.
  { apply existsb_exists. exists k. split; [assumption|].
    apply str_eqb_eq. assumption. }
  congruence.
Qed.

Lemma display_step values j v :
  1 <= j <= 9 ->
  (2 <= j <= 4 -> v <> []) ->
  match OptionDat.getKeyForEditConfEntry 1 j with
  | Some (s, k) =>
      extractWin9xDisplaySettings (obj_set values (getPlaceholderKey s k) v)
      = extract_entry false (extractWin9xDisplaySettings values) (mkEntry 1 j v)
  | None => False
  end.
Proof.
  intros Hj Hv.
  assert (j = 1 \/ j = 2 \/ j = 3 \/ j = 4 \/ j = 5 \/ j = 6 \/ j = 7
          \/ j = 8 \/ j = 9) as Hc by lia.
  destruct v as [|c v].
  - assert (j = 1 \/ j = 5 \/ j = 6 \/ j = 7 \/ j = 8 \/ j = 9) as Hc'.
    { destruct (Z.le_gt_cases 2 j) as [H2|H2];
        [destruct (Z.le_gt_cases j 4) as [H4|H4]|];
        [exfalso; apply Hv; [lia|reflexivity]|lia|lia]. }
    clear Hc Hv Hj.
    repeat destruct Hc' as [Hc'|Hc']; subst j;
      match goal with
      | |- context [OptionDat.getKeyForEditConfEntry 1 ?n] =>
          let r := eval vm_compute in (OptionDat.getKeyForEditConfEntry 1 n) in
          change (OptionDat.getKeyForEditConfEntry 1 n) with r
      end;
      unfold extractWin9xDisplaySettings, getPlaceholderKey; cbv beta zeta;
      rewrite !obj_get_set; reflexivity.
  - clear Hv Hj.
    repeat destruct Hc as [Hc|Hc]; subst j;
      match goal with
      | |- context [OptionDat.getKeyForEditConfEntry 1 ?n] =>
          let r := eval vm_compute in (OptionDat.getKeyForEditConfEntry 1 n) in
          change (OptionDat.getKeyForEditConfEntry 1 n) with r
      end;
      unfold extractWin9xDisplaySettings, getPlaceholderKey; cbv beta zeta;
      rewrite !obj_get_set; reflexivity.
Qed.

Lemma win9x_paths_step values e :
  negb ((section e =? 1) && (2 <=? item e) && (item e <=? 4))
  || truthy (Some (value e)) = true ->
  extractWin9xDisplaySettings
    (match OptionDat.getKeyForEditConfEntry (section e) (item e) with
     | Some (s, k) => obj_set values (getPlaceholderKey s k) (value e)
     | None => values
     end)
  = extract_entry false (extractWin9xDisplaySettings values) e.
Proof.
  intros Hne.
  destruct ((section e =? 1) && (1 <=? item e) && (item e <=? 9)) eqn:Erel.
  - apply andb_true_iff in Erel as [Erel H9].
    apply andb_true_iff in Erel as [Hs H1].
    apply Z.eqb_eq in Hs. apply Z.leb_le in H1, H9.
    destruct e as [s i v]. cbn [section item value] in *. subst s.
    assert (2 <= i <= 4 -> v <> []) as Hv.
    { intros [Ha Hb] ->. apply Z.leb_le in Ha, Hb. rewrite Ha, Hb in Hne.
      discriminate. }
    pose proof (display_step values i v (conj H1 H9) Hv) as Hstep.
    destruct (OptionDat.getKeyForEditConfEntry 1 i) as [[s k]|];
      [exact Hstep|contradiction].
  - rewrite extract_entry_irrelevant by (unfold win9x_relevant; exact Erel).
    destruct (OptionDat.getKeyForEditConfEntry (section e) (item e))
      as [[s k]|] eqn:Ek; [|reflexivity].
    rewrite getKeyForEditConfEntry_schema_key in Ek.
    apply extractWin9xDisplaySettings_ext. intros k' Hk'.
    apply obj_get_set_ne.
    exact (win9x_keys_addresses _ _ (s, k) Ek Erel k' Hk').
Qed.

Lemma win9x_paths_lines lines values :
  win9x_flags_nonempty (omap parseEditConf_line lines) = true ->
  extractWin9xDisplaySettings
    (fold_left
       (fun values line =>
          match parseEditConfFormat_line line with
          | Some (k, v) => obj_set values k v
          | None => values
          end) lines values)
  = fold_left (extract_entry false) (omap parseEditConf_line lines)
      (extractWin9xDisplaySettings values).
Proof.
  revert values. induction lines as [|line lines IH]; intros values Hne;
    [reflexivity|].
  cbn [fold_left omap list_omap] in *.
  rewrite parseEditConfFormat_line_entry.
  destruct (parseEditConf_line line) as [e|]; [|apply IH; assumption].
  unfold win9x_flags_nonempty in Hne. cbn [forallb] in Hne.
  apply andb_true_iff in Hne as [He Hl].
  cbn [fold_left]. rewrite <- (win9x_paths_step values e He).
  destruct (OptionDat.getKeyForEditConfEntry (section e) (item e)) as [[s k]|];
    apply IH; exact Hl.
Qed.

Lemma win9x_paths_agree (content : str) :
  win9x_flags_nonempty (parseEditConf content) = true ->
  extractWin9xDisplaySettings (parseEditConfFormat content)
  = extractWin9xSettings (parseEditConf content) false.
Proof.
  intros H. unfold parseEditConfFormat, extractWin9xSettings, parseEditConf.
  rewrite win9x_paths_lines by exact H. reflexivity.
Qed.

(** X13: the Win9x settings read from the values map of [parseEditConfFormat]
    are those [extractWin9xSettings] reads from the entries of
    [parseEditConf] under the current schema, for every text in which no
    ddraw, d3d or 3dfx entry has an empty value. *)
Theorem X13_win9x_paths_agree (content : str) :
  win9x_flags_nonempty (parseEditConf content) = true ->
  extractWin9xDisplaySettings (parseEditConfFormat content)
  = extractWin9xSettings (parseEditConf content) false.
Proof. apply win9x_paths_agree. Qed.

Lemma X13_win9x_paths_agree_witness :
  extractWin9xDisplaySettings
    (parseEditConfFormat (lit "1|1|800x16" ++ [LF] ++ lit "1|6|0"))
  = extractWin9xSettings
      (parseEditConf (lit "1|1|800x16" ++ [LF] ++ lit "1|6|0")) false.
Proof.
  refine (X13_win9x_paths_agree (lit "1|1|800x16" ++ [LF] ++ lit "1|6|0") _).
  vm_compute. reflexivity.
Defined.

(** X18: the Win9x display settings of a preset text and an edit.conf text
    are the settings [extractWin9xSettings] reads, under the current schema,
    from the entries of the preset followed by the entries of the edit.conf,
    when no ddraw, d3d or 3dfx entry of either has an empty value; with both
    texts omitted they are the built-in defaults. *)
Theorem X18_win9x_display_settings_layers (a b : str) :
  win9x_flags_nonempty (parseEditConf a ++ parseEditConf b) = true ->
  getWin9xDisplaySettingsFromEditConf (Some a) (Some b)
    = extractWin9xSettings (parseEditConf a ++ parseEditConf b) false
  /\ getWin9xDisplaySettingsFromEditConf None None = win9x_defaults.
Proof.
  intros H. split; [|reflexivity].
  rewrite <- parseEditConf_app in *.
  rewrite <- win9x_paths_agree by exact H.
  unfold getWin9xDisplaySettingsFromEditConf.
  apply extractWin9xDisplaySettings_ext. intros k _.
  rewrite layeredValues_get. cbn [values_of].
  rewrite !parseEditConfFormat_last, lines_of_app, last_value_app.
  reflexivity.
Qed.

Lemma X18_win9x_display_settings_layers_witness :
  getWin9xDisplaySettingsFromEditConf
    (Some (lit "1|1|800x16")) (Some (lit "1|1|1024x32"))
  = extractWin9xSettings
      (parseEditConf (lit "1|1|800x16") ++ parseEditConf (lit "1|1|1024x32"))
      false.
Proof.
  refine (proj1 (X18_win9x_display_settings_layers
                   (lit "1|1|800x16") (lit "1|1|1024x32") _)).
  vm_compute. reflexivity.
Defined.

(* ================================================================== *)
(** * The header of the assembled document *)
(* ================================================================== *)

Lemma trimStart_nonws c s : is_ws c = false -> trimStart (c :: s) = c :: s.
Proof. intros H. unfold trimStart. cbn [dropWhile]. rewrite H. reflexivity. Qed.

(** Trailing white space of the document body goes; the rest stays. *)
Lemma trimEnd_body (S autoexec : str) :
  trimEnd (join [LF] [S; lit "[autoexec]"; autoexec])
  = S ++ [LF] ++ lit "[autoexec]" ++ trimEnd (LF :: autoexec).
Proof.
  change (join [LF] [S; lit "[autoexec]"; autoexec])
    with (S ++ [LF] ++ (lit "[autoexec" ++ ["]"%char]) ++ LF :: autoexec).
  rewrite (app_assoc S [LF]).
  assert (trimEnd ((lit "[autoexec" ++ ["]"%char]) ++ LF :: autoexec)
          = (lit "[autoexec" ++ ["]"%char]) ++ trimEnd (LF :: autoexec)) as E
    by (apply trimEnd_after_word; reflexivity).
  rewrite trimEnd_app by (rewrite E; discriminate).
  rewrite E, <- !app_assoc. reflexivity.
Qed.

Lemma trimEnd_body_nonempty (S autoexec : str) :
  trimEnd (join [LF] [S; lit "[autoexec]"; autoexec]) <> [].
Proof.
  rewrite trimEnd_body. destruct S; discriminate.
Qed.

(** With an emitted section, the serialised sections start with its
    header. *)
Lemma settingsToConfString_starts R settings :
  emitted_sections R settings <> [] ->
  exists rest, settingsToConfString R settings = "["%char :: rest.
Proof.
  unfold settingsToConfString. rewrite conf_lines_emitted.
  destruct (emitted_sections R settings) as [|sec secs]; [congruence|].
  intros _. cbn [flat_map section_lines app].
  destruct (map (fun kv => fst kv ++ lit "=" ++ snd kv) (snd sec) ++ [[]])
    as [|l ls] eqn:E.
  - destruct (map _ (snd sec)); discriminate.
  - cbn [app join]. eexists. reflexivity.
Qed.

Lemma generateDosboxConf_header R settings autoexec c h :
  is_ws c = false ->
  emitted_sections R settings <> [] ->
  generateDosboxConf R settings autoexec (Some (c :: h))
  = (c :: h) ++ [LF; LF] ++ generateDosboxConf R settings autoexec None.
Proof.
  intros Hc Hem. unfold generateDosboxConf. cbn [truthy app].
  set (S := settingsToConfString R settings).
  change (join [LF] [c :: h; []; S; lit "[autoexec]"; autoexec])
    with ((c :: h) ++ [LF; LF] ++ join [LF] [S; lit "[autoexec]"; autoexec]).
  unfold trim at 1. cbn [app]. rewrite trimStart_nonws by assumption.
  replace (c :: h ++ LF :: LF :: join [LF] [S; lit "[autoexec]"; autoexec])
    with (((c :: h) ++ [LF; LF]) ++ join [LF] [S; lit "[autoexec]"; autoexec])
    by (rewrite <- app_assoc; reflexivity).
  rewrite trimEnd_app by apply trimEnd_body_nonempty.
  destruct (settingsToConfString_starts R settings Hem) as [rest Hrest].
  unfold trim. fold S in Hrest.
  assert (trimStart (join [LF] [S; lit "[autoexec]"; autoexec])
          = join [LF] [S; lit "[autoexec]"; autoexec]) as Hts.
  { rewrite Hrest. cbn [join app]. apply trimStart_nonws. reflexivity. }
  rewrite Hts, <- app_assoc. reflexivity.
Qed.

(** X14: a header that starts with a character other than white space is put
    in front of the document assembled without a header, one empty line
    between them, whenever the settings have a section to emit; the empty
    header is no header. *)
Theorem X14_document_header
    (R : Revision) (settings : DosboxSettings) (autoexec : str)
    (c : ascii) (h : str) :
  is_ws c = false ->
  emitted_sections R settings <> [] ->
  generateDosboxConf R settings autoexec (Some (c :: h))
    = (c :: h) ++ [LF; LF] ++ generateDosboxConf R settings autoexec None
  /\ generateDosboxConf R settings autoexec (Some [])
     = generateDosboxConf R settings autoexec None.
Proof.
  intros Hc Hem. split; [apply generateDosboxConf_header; assumption|].
  reflexivity.
Qed.

Lemma X14_document_header_witness :
  generateDosboxConf services example_settings (lit "exit") (Some (lit "# game"))
  = lit "# game" ++ [LF; LF]
    ++ generateDosboxConf services example_settings (lit "exit") None.
Proof.
  refine (proj1 (X14_document_header services example_settings (lit "exit")
                   "#" (lit " game") _ _)).
  - reflexivity.
  - vm_compute. discriminate.
Defined.

(* ================================================================== *)
(** * Overrides for the line template *)
(* ================================================================== *)

Section FilterByKey.
Context {V : Type} (q : str -> bool).




End FilterByKey.


Section Overrides.
Variables (sectionIndex : Table str) (sectionItems : Table (Table str)).





End Overrides.



(* ================================================================== *)
(** * The DOS game configuration *)
(* ================================================================== *)






(* ================================================================== *)
(** * The two revisions of the current schema *)
(* ================================================================== *)

Lemma same_key_eq a b : same_key a b = true -> a = b.
Proof.
  destruct a as [[s k]|], b as [[s' k']|]; cbn [same_key];
    try discriminate; [|reflexivity].
  rewrite andb_true_iff. intros [H1 H2]. apply str_eqb_eq in H1, H2.
  subst. reflexivity.
Qed.

Lemma key_is_false_ne p s k : key_is (Some p) s k = false -> p <> (s, k).
Proof. intros H ->. rewrite key_is_refl in H. discriminate. Qed.

(** Apart from voodoo.voodoomem, an address the earlier current schema knows
    has the same key in the later one. *)
Lemma services_key_in_optiondat a b p :
  schema_key Services.SECTION_INDEX Services.SECTION_ITEMS a b = Some p ->
  p <> (lit "voodoo", lit "voodoomem") ->
  schema_key OptionDat.SECTION_NAMES OptionDat.SECTION_ITEMS a b = Some p.
Proof.
  intros Hp Hne.
  pose proof (schema_key_forall Services.SECTION_INDEX Services.SECTION_ITEMS
                (fun a b p =>
                   key_is (Some p) (lit "voodoo") (lit "voodoomem")
                   || same_key
                        (schema_key OptionDat.SECTION_NAMES
                           OptionDat.SECTION_ITEMS a b) (Some p))) as Hall.
  cbn beta in Hall. specialize (Hall ltac:(vm_compute; reflexivity) _ _ _ Hp).
  apply orb_true_iff in Hall as [Hall|Hall].
  - apply key_is_eq in Hall. contradiction.
  - apply same_key_eq. assumption.
Qed.

(** An address to which the later current schema gives a key of the earlier
    one has that key in the earlier one too. *)
Lemma optiondat_key_in_services a b p a' b' :
  schema_key OptionDat.SECTION_NAMES OptionDat.SECTION_ITEMS a b = Some p ->
  schema_key Services.SECTION_INDEX Services.SECTION_ITEMS a' b' = Some p ->
  schema_key Services.SECTION_INDEX Services.SECTION_ITEMS a b = Some p.
Proof.
  intros Hp Hs.
  pose proof (schema_key_forall OptionDat.SECTION_NAMES OptionDat.SECTION_ITEMS
                (fun a b p =>
                   negb (existsb
                           (fun r => key_is (Some (snd r)) (fst p) (snd p))
                           (schema_rows Services.SECTION_INDEX
                              Services.SECTION_ITEMS))
                   || same_key
                        (schema_key Services.SECTION_INDEX
                           Services.SECTION_ITEMS a b) (Some p))) as Hall.
  cbn beta in Hall. specialize (Hall ltac:(vm_compute; reflexivity) _ _ _ Hp).
  apply orb_true_iff in Hall as [Hall|Hall].
  - apply negb_true_iff in Hall.
    assert (existsb (fun r => key_is (Some (snd r)) (fst p) (snd p))
              (schema_rows Services.SECTION_INDEX Services.SECTION_ITEMS)
            = true) as Hex.
    { apply existsb_exists. exists (a', b', p).
      split; [apply schema_key_rows; assumption|].
      destruct p. apply key_is_refl. }
    congruence.
  - apply same_key_eq. assumption.
Qed.

(** X17: the two revisions of the current schema resolve alike.  At every
    key the earlier revision's tables know, other than voodoo.voodoomem,
    every entry list resolves under the later revision's tables (those of
    option-dat.ts) to the value it resolves to under the earlier ones. *)
Theorem X17_revisions_agree
    (entries : list EditConfEntry) (a b : Z) (s k : str) :
  active_key services false a b = Some (s, k) ->
  (s, k) <> (lit "voodoo", lit "voodoomem") ->
  obj_get2 (convertEditConfToSettings services entries false) s k
  = obj_get2 (convertEditConfToSettings mapper entries false) s k.
Proof.
  intros Hsk Hne. rewrite !convert_last. apply last_value_ext. intros e.
  unfold writes_at, active_key in *.
  change (schema_key (SECTION_INDEX services) (SECTION_ITEMS services))
    with (schema_key Services.SECTION_INDEX Services.SECTION_ITEMS) in *.
  change (schema_key (SECTION_INDEX mapper) (SECTION_ITEMS mapper))
    with (schema_key OptionDat.SECTION_NAMES OptionDat.SECTION_ITEMS).
  destruct (schema_key Services.SECTION_INDEX Services.SECTION_ITEMS
              (section e) (item e)) as [p|] eqn:ES.
  - destruct (key_is (Some p) s k) eqn:Ek.
    + apply key_is_eq in Ek. subst p.
      rewrite (services_key_in_optiondat _ _ _ ES Hne), key_is_refl.
      reflexivity.
    + destruct (schema_key OptionDat.SECTION_NAMES OptionDat.SECTION_ITEMS
                  (section e) (item e)) as [q|] eqn:EO; [|reflexivity].
      destruct (key_is (Some q) s k) eqn:Eq; [|reflexivity].
      apply key_is_eq in Eq. subst q.
      pose proof (optiondat_key_in_services _ _ _ _ _ EO Hsk) as ES'.
      rewrite ES in ES'. injection ES' as ->.
      rewrite key_is_refl in Ek. discriminate.
  - cbn [key_is].
    destruct (schema_key OptionDat.SECTION_NAMES OptionDat.SECTION_ITEMS
                (section e) (item e)) as [q|] eqn:EO; [|reflexivity].
    destruct (key_is (Some q) s k) eqn:Eq; [|reflexivity].
    apply key_is_eq in Eq. subst q.
    pose proof (optiondat_key_in_services _ _ _ _ _ EO Hsk) as ES'.
    rewrite ES in ES'. discriminate.
Qed.

Lemma X17_revisions_agree_witness :
  obj_get2
    (convertEditConfToSettings services
       [mkEntry 7 3 (lit "16"); mkEntry 21 1 (lit "4"); mkEntry 7 3 (lit "256")]
       false) (lit "dosbox") (lit "memsize")
  = obj_get2
      (convertEditConfToSettings mapper
         [mkEntry 7 3 (lit "16"); mkEntry 21 1 (lit "4"); mkEntry 7 3 (lit "256")]
         false) (lit "dosbox") (lit "memsize").
Proof.
  refine (X17_revisions_agree
            [mkEntry 7 3 (lit "16"); mkEntry 21 1 (lit "4");
             mkEntry 7 3 (lit "256")]
            7 3 (lit "dosbox") (lit "memsize") _ _).
  - vm_compute. reflexivity.
  - discriminate.
Defined.

(* ================================================================== *)
(** * Version markers and entries *)
(* ================================================================== *)

Lemma version_of_lines_app l1 l2 :
  version_of_lines (l1 ++ l2)
  = if forallb not_marker l1 then version_of_lines l2 else version_of_lines l1.
Proof.
  induction l1 as [|l l1 IH]; [reflexivity|].
  cbn [app version_of_lines forallb]. unfold not_marker at 1.
  destruct (startsWith (lit "ver.") (trim l)); cbn [negb andb];
    [reflexivity|exact IH].
Qed.

Lemma parseEditConf_line_marker line :
  not_marker line = false -> parseEditConf_line line = None.
Proof.
  unfold not_marker, parseEditConf_line. rewrite negb_false_iff.
  intros ->. reflexivity.
Qed.

Lemma omap_filter_markers ls :
  omap parseEditConf_line (List.filter not_marker ls)
  = omap parseEditConf_line ls.
Proof.
  induction ls as [|l ls IH]; [reflexivity|].
  cbn [List.filter omap list_omap]. destruct (not_marker l) eqn:E.
  - cbn [omap list_omap]. rewrite IH. reflexivity.
  - rewrite (parseEditConf_line_marker l E). exact IH.
Qed.

Lemma parseEditConf_join ls :
  forallb no_lf ls = true ->
  parseEditConf (join [LF] ls) = omap parseEditConf_line ls.
Proof.
  intros H. destruct ls as [|l ls]; [reflexivity|].
  unfold parseEditConf, lines_of.
  rewrite split_join by (discriminate || exact H). reflexivity.
Qed.

Lemma forallb_filter {A} (p q : A -> bool) (l : list A) :
  forallb p l = true -> forallb p (List.filter q l) = true.
Proof.
  induction l as [|x l IH]; [reflexivity|].
  cbn [forallb List.filter]. rewrite andb_true_iff. intros [Hx Hl].
  destruct (q x); [cbn [forallb]; rewrite Hx|]; apply IH; assumption.
Qed.

(** X19: the version of a text is that of its first marker line: for two
    texts joined by a line break it is the version of the first when the
    first has a marker line, and the version of the second otherwise.  Marker
    lines give no entries: removing them from a text leaves what
    [parseEditConf] reads unchanged. *)
Theorem X19_version_marker_and_entries (a b : str) (ls : list str) :
  forallb no_lf ls = true ->
  parseEditConfVersion (a ++ LF :: b)
    = (if forallb not_marker (lines_of a) then parseEditConfVersion b
       else parseEditConfVersion a)
  /\ parseEditConf (join [LF] (List.filter not_marker ls))
     = parseEditConf (join [LF] ls).
Proof.
  intros Hls. split.
  - unfold parseEditConfVersion. rewrite lines_of_app.
    apply version_of_lines_app.
  - rewrite !parseEditConf_join by (try apply forallb_filter; exact Hls).
    apply omap_filter_markers.
Qed.

Lemma X19_version_marker_and_entries_witness :
  parseEditConf
    (join [LF]
       (List.filter not_marker
          [lit "ver.23.01.10"; lit "7|3|256"; lit "ver.19.01.01"]))
  = parseEditConf
      (join [LF] [lit "ver.23.01.10"; lit "7|3|256"; lit "ver.19.01.01"]).
Proof.
  refine (proj2 (X19_version_marker_and_entries [] []
                   [lit "ver.23.01.10"; lit "7|3|256"; lit "ver.19.01.01"] _)).
  vm_compute. reflexivity.
Defined.
